(** * TokenSpeedMonitor: a shallow embedding of the token speedometer

    Source: [src/monitors/TokenSpeedMonitor.ts].

    The monitor is a single-threaded object driven by three public calls
    ([startTracking], [addTokens], [stopTracking]), one public utility
    ([resetMetrics]), [dispose], and two timer callbacks.  The embedding
    passes the object's fields explicitly as a record [Monitor]; what the
    code does to the outside world (status bar item, emitted events) is
    returned as a list of [Effect]s, in program order.

    Numbers.  Token counts and [Date.now()] readings are integers and are
    modelled in [Z].  Speeds and the elapsed time are quotients of such
    integers; they are modelled as exact rationals [Q] (the rounding of the
    JavaScript doubles is not modelled).  Every call of [Date.now()] is a
    parameter of the operation that makes it, so one [addTokens] receives
    three readings: its own, the one of [calculateSpeed] and the one of
    [throttledUpdateDisplay]. *)

From Stdlib Require Import ZArith QArith List String Bool Lia Sorted.
Import ListNotations.

Local Open Scope Z_scope.

(** ** Rational comparison as the code's [>] and [<] *)

Definition Qltb (x y : Q) : bool :=
  Qnum x * Zpos (Qden y) <? Qnum y * Zpos (Qden x).

(** [(a - b) / 1000], the code's conversion of a millisecond difference
    to seconds. *)
Definition seconds (ms : Z) : Q := (inject_Z ms / inject_Z 1000)%Q.

Module TokenSpeedMonitor.

(** ** Configuration constants *)

Definition SPEED_BUFFER_SIZE : Z := 10.
Definition DISPLAY_THROTTLE_MS : Z := 100.
Definition POST_TRACKING_DISPLAY_MS : Z := 5000.
Definition METRICS_UPDATE_INTERVAL_MS : Z := 500.

(** ** Data *)

Record TokenDataPoint := mkPoint {
  count : Z;
  timestamp : Z
}.

Record TokenSpeedMetrics := mkMetrics {
  currentSpeed : Q;   (* tokens/second *)
  averageSpeed : Q;   (* average over session *)
  peakSpeed : Q;      (* highest recorded *)
  totalTokens : Z;
  elapsedTime : Q     (* seconds *)
}.

(** A [NodeJS.Timeout] handle: the delay it was created with and whether
    it can still fire (an interval stays pending after it fired, a
    one-shot timeout does not).  A cleared handle is [None] in the field
    that held it. *)
Record Timer := mkTimer {
  delayMs : Z;
  pending : bool
}.

Record Monitor := mkMonitor {
  currentMetrics : TokenSpeedMetrics;
  isTracking : bool;
  startTime : Z;
  tokenBuffer : list TokenDataPoint;
  lastDisplayUpdate : Z;
  metricsUpdateInterval : option Timer;
  hideTimeout : option Timer
}.

(** The five speed indicators, as the Unicode code point of the emoji the
    code returns. *)
Definition SNAIL : N := 0x1F40C.
Definition WALKER : N := 0x1F6B6.
Definition RUNNER : N := 0x1F3C3.
Definition CAR : N := 0x1F697.
Definition ROCKET : N := 0x1F680.

(** The status bar text [`${icon}${speed.toFixed(1)} t/s`], kept in
    structured form: the icon prefix (absent when [showIcon] is off) and
    the speed that is formatted. *)
Record StatusText := mkText {
  textIcon : option N;
  textSpeed : Q
}.

Inductive Event :=
| trackingStarted (model : string)
| metricsUpdated (metrics : TokenSpeedMetrics)
| trackingEnded (metrics : TokenSpeedMetrics).

Inductive Effect :=
| Emit (e : Event)
| StatusBarShow
| StatusBarHide
| StatusBarText (t : StatusText)
| StatusBarDispose.

(** ** Field updates *)

Definition set_currentSpeed (v : Q) (c : TokenSpeedMetrics) :=
  mkMetrics v (averageSpeed c) (peakSpeed c) (totalTokens c) (elapsedTime c).
Definition set_averageSpeed (v : Q) (c : TokenSpeedMetrics) :=
  mkMetrics (currentSpeed c) v (peakSpeed c) (totalTokens c) (elapsedTime c).
Definition set_peakSpeed (v : Q) (c : TokenSpeedMetrics) :=
  mkMetrics (currentSpeed c) (averageSpeed c) v (totalTokens c) (elapsedTime c).
Definition set_totalTokens (v : Z) (c : TokenSpeedMetrics) :=
  mkMetrics (currentSpeed c) (averageSpeed c) (peakSpeed c) v (elapsedTime c).
Definition set_elapsedTime (v : Q) (c : TokenSpeedMetrics) :=
  mkMetrics (currentSpeed c) (averageSpeed c) (peakSpeed c) (totalTokens c) v.

Definition set_currentMetrics (v : TokenSpeedMetrics) (m : Monitor) :=
  mkMonitor v (isTracking m) (startTime m) (tokenBuffer m)
            (lastDisplayUpdate m) (metricsUpdateInterval m) (hideTimeout m).
Definition set_isTracking (v : bool) (m : Monitor) :=
  mkMonitor (currentMetrics m) v (startTime m) (tokenBuffer m)
            (lastDisplayUpdate m) (metricsUpdateInterval m) (hideTimeout m).
Definition set_startTime (v : Z) (m : Monitor) :=
  mkMonitor (currentMetrics m) (isTracking m) v (tokenBuffer m)
            (lastDisplayUpdate m) (metricsUpdateInterval m) (hideTimeout m).
Definition set_tokenBuffer (v : list TokenDataPoint) (m : Monitor) :=
  mkMonitor (currentMetrics m) (isTracking m) (startTime m) v
            (lastDisplayUpdate m) (metricsUpdateInterval m) (hideTimeout m).
Definition set_lastDisplayUpdate (v : Z) (m : Monitor) :=
  mkMonitor (currentMetrics m) (isTracking m) (startTime m) (tokenBuffer m)
            v (metricsUpdateInterval m) (hideTimeout m).
Definition set_metricsUpdateInterval (v : option Timer) (m : Monitor) :=
  mkMonitor (currentMetrics m) (isTracking m) (startTime m) (tokenBuffer m)
            (lastDisplayUpdate m) v (hideTimeout m).
Definition set_hideTimeout (v : option Timer) (m : Monitor) :=
  mkMonitor (currentMetrics m) (isTracking m) (startTime m) (tokenBuffer m)
            (lastDisplayUpdate m) (metricsUpdateInterval m) v.

Definition modify_metrics (f : TokenSpeedMetrics -> TokenSpeedMetrics)
    (m : Monitor) : Monitor :=
  set_currentMetrics (f (currentMetrics m)) m.

(** ** Methods as state transformers with an effect log *)

Definition Action := Monitor -> Monitor * list Effect.

Definition skip : Action := fun m => (m, []).
Definition modify (f : Monitor -> Monitor) : Action := fun m => (f m, []).
Definition effect (e : Effect) : Action := fun m => (m, [e]).
Definition andThen (a b : Action) : Action :=
  fun m => let (m1, e1) := a m in
           let (m2, e2) := b m1 in (m2, e1 ++ e2).
Definition when (c : Monitor -> bool) (a : Action) : Action :=
  fun m => if c m then a m else (m, []).

Declare Scope action_scope.
Delimit Scope action_scope with action.
Notation "a ;; b" := (andThen a b)
  (at level 61, right associativity) : action_scope.
Local Open Scope action_scope.

(** [resetMetrics]: a fresh zero snapshot and an empty buffer; nothing
    else is touched. *)
Definition zeroMetrics : TokenSpeedMetrics := mkMetrics 0 0 0 0 0.

Definition resetMetrics : Action :=
  modify (set_currentMetrics zeroMetrics) ;;
  modify (set_tokenBuffer []).

Definition clearTimeouts : Action :=
  when (fun m => match metricsUpdateInterval m with Some _ => true | None => false end)
       (modify (set_metricsUpdateInterval None)) ;;
  when (fun m => match hideTimeout m with Some _ => true | None => false end)
       (modify (set_hideTimeout None)).

(** The object as the constructor leaves it. *)
Definition init : Monitor :=
  mkMonitor zeroMetrics false 0 [] 0 None None.

Definition startTracking (now : Z) (modelName : string) : Action :=
  clearTimeouts ;;
  modify (set_isTracking true) ;;
  modify (set_startTime now) ;;
  resetMetrics ;;
  effect StatusBarShow ;;
  modify (set_metricsUpdateInterval
            (Some (mkTimer METRICS_UPDATE_INTERVAL_MS true))) ;;
  effect (Emit (trackingStarted modelName)).

(** [calculateSpeed], with [now] its own reading of the clock. *)
Definition calculateSpeed (now : Z) (m : Monitor) : Monitor :=
  let elapsed := seconds (now - startTime m) in
  let m := modify_metrics (set_elapsedTime elapsed) m in
  if Qltb 0 elapsed then
    let m :=
      if (1 <? List.length (tokenBuffer m))%nat then
        match tokenBuffer m with
        | first :: _ =>
          let recentTokens :=
            fold_left (fun sum point => sum + count point) (tokenBuffer m) 0 in
          let timeSpan := seconds (now - timestamp first) in
          if Qltb 0 timeSpan
          then modify_metrics
                 (set_currentSpeed (inject_Z recentTokens / timeSpan)%Q) m
          else m
        | [] => m (* not reached: the length is above 1 *)
        end
      else m in
    let m :=
      modify_metrics
        (set_averageSpeed
           (inject_Z (totalTokens (currentMetrics m)) / elapsed)%Q) m in
    if Qltb (peakSpeed (currentMetrics m)) (currentSpeed (currentMetrics m))
    then modify_metrics (set_peakSpeed (currentSpeed (currentMetrics m))) m
    else m
  else m.

Definition getSpeedIcon (speed : Q) : N :=
  if Qltb speed (inject_Z 10) then SNAIL
  else if Qltb speed (inject_Z 30) then WALKER
  else if Qltb speed (inject_Z 60) then RUNNER
  else if Qltb speed (inject_Z 100) then CAR
  else ROCKET.

(** [updateDisplay]; [showIcon] is the configuration value it reads. *)
Definition updateDisplay (showIcon : bool) : Action :=
  fun m =>
    if negb (isTracking m) then (m, [])
    else
      let speed := currentSpeed (currentMetrics m) in
      let icon := if showIcon then Some (getSpeedIcon speed) else None in
      (m, [StatusBarText (mkText icon speed)]).

Definition throttledUpdateDisplay (now : Z) (showIcon : bool) : Action :=
  when (fun m => DISPLAY_THROTTLE_MS <=? now - lastDisplayUpdate m)
       (updateDisplay showIcon ;;
        modify (set_lastDisplayUpdate now)).

(** [addTokens]: [now] is its own clock reading, [nowSpeed] the one taken
    by [calculateSpeed] and [nowDisplay] the one taken by
    [throttledUpdateDisplay]. *)
Definition addTokens (now nowSpeed nowDisplay : Z) (showIcon : bool)
    (cnt : Z) : Action :=
  fun m =>
    if negb (isTracking m) || (cnt =? 0) then (m, [])
    else
      (modify (modify_metrics
                 (fun c => set_totalTokens (totalTokens c + cnt) c)) ;;
       modify (fun m => set_tokenBuffer
                          (tokenBuffer m ++ [mkPoint cnt now]) m) ;;
       modify (fun m =>
                 let cutoffTime :=
                   now - SPEED_BUFFER_SIZE * DISPLAY_THROTTLE_MS in
                 set_tokenBuffer
                   (filter (fun point => cutoffTime <? timestamp point)
                           (tokenBuffer m)) m) ;;
       modify (calculateSpeed nowSpeed) ;;
       throttledUpdateDisplay nowDisplay showIcon) m.

Definition stopTracking : Action :=
  modify (set_isTracking false) ;;
  clearTimeouts ;;
  (fun m => (m, [Emit (trackingEnded (currentMetrics m))])) ;;
  modify (set_hideTimeout (Some (mkTimer POST_TRACKING_DISPLAY_MS true))).

(** The [setInterval] callback of [startTracking]; it runs only while its
    handle has not been cleared. *)
Definition onMetricsInterval : Action :=
  fun m =>
    match metricsUpdateInterval m with
    | Some t =>
      if pending t && isTracking m
      then (m, [Emit (metricsUpdated (currentMetrics m))])
      else (m, [])
    | None => (m, [])
    end.

(** The [setTimeout] callback of [stopTracking]; it runs once, and only if
    its handle has not been cleared. *)
Definition onHideTimeout : Action :=
  fun m =>
    match hideTimeout m with
    | Some t =>
      if pending t
      then
        let m' := set_hideTimeout (Some (mkTimer (delayMs t) false)) m in
        if negb (isTracking m) then (m', [StatusBarHide]) else (m', [])
      else (m, [])
    | None => (m, [])
    end.

Definition dispose : Action :=
  clearTimeouts ;;
  effect StatusBarDispose.

(** ** Calls and runs *)

Inductive Call :=
| StartTracking (now : Z) (modelName : string)
| AddTokens (now nowSpeed nowDisplay : Z) (showIcon : bool) (cnt : Z)
| StopTracking
| ResetMetrics
| MetricsInterval
| HideTimeout
| Dispose.

Definition step (c : Call) : Action :=
  match c with
  | StartTracking now modelName => startTracking now modelName
  | AddTokens now nowSpeed nowDisplay showIcon cnt =>
    addTokens now nowSpeed nowDisplay showIcon cnt
  | StopTracking => stopTracking
  | ResetMetrics => resetMetrics
  | MetricsInterval => onMetricsInterval
  | HideTimeout => onHideTimeout
  | Dispose => dispose
  end.

Fixpoint run (cs : list Call) : Action :=
  match cs with
  | [] => skip
  | c :: cs' => step c ;; run cs'
  end.

(** [addTokens] called at one instant: the three clock readings agree. *)
Definition AddTokensAt (now : Z) (cnt : Z) : Call :=
  AddTokens now now now true cnt.

Definition metricsAfter (cs : list Call) (m : Monitor) : TokenSpeedMetrics :=
  currentMetrics (fst (run cs m)).

(** ** Vocabulary of the statements *)

(** The state [addTokens] hands to [calculateSpeed]: total incremented,
    the arrival appended, the buffer filtered. *)
Definition ingest (now cnt : Z) (m : Monitor) : Monitor :=
  let m1 :=
    modify_metrics (fun c => set_totalTokens (totalTokens c + cnt) c) m in
  let m2 := set_tokenBuffer (tokenBuffer m1 ++ [mkPoint cnt now]) m1 in
  set_tokenBuffer
    (filter (fun point =>
               now - SPEED_BUFFER_SIZE * DISPLAY_THROTTLE_MS <? timestamp point)
            (tokenBuffer m2)) m2.

(** The calls of a session that is being fed: [addTokens] with a count of
    at least one, and ticks of the broadcaster between them. *)
Definition feeds (c : Call) : Prop :=
  match c with
  | AddTokens _ _ _ _ cnt => 1 <= cnt
  | MetricsInterval => True
  | _ => False
  end.

Definition countOf (c : Call) : Z :=
  match c with
  | AddTokens _ _ _ _ cnt => cnt
  | _ => 0
  end.

Definition sumCounts (cs : list Call) : Z :=
  fold_right (fun c acc => countOf c + acc) 0 cs.

(** [recentTokens] and [timeSpan] of [calculateSpeed], as functions of the
    buffer it finds. *)
Definition windowSum (b : list TokenDataPoint) : Z :=
  fold_left (fun sum point => sum + count point) b 0.

Definition windowSpan (now : Z) (b : list TokenDataPoint) : Q :=
  match b with
  | first :: _ => seconds (now - timestamp first)
  | [] => 0
  end.

(** The condition under which [currentSpeed] is assigned. *)
Definition recomputes (now start : Z) (b : list TokenDataPoint) : Prop :=
  (0 < seconds (now - start))%Q /\
  (1 < List.length b)%nat /\
  (0 < windowSpan now b)%Q.

(** A monitor one second into a session with arrivals of 5 and 7 tokens
    buffered. *)
Definition sampleMonitor : Monitor :=
  mkMonitor (mkMetrics 0 0 0 12 0) true 1000
            [mkPoint 5 1500; mkPoint 7 1900] 0 None None.

(** The snapshot invariant: the peak is at least the current speed. *)
Definition peakCovers (m : Monitor) : Prop :=
  (currentSpeed (currentMetrics m) <= peakSpeed (currentMetrics m))%Q.

(** The calls that install a zero snapshot: [startTracking] and the
    public [resetMetrics]. *)
Definition resetsMetrics (c : Call) : bool :=
  match c with
  | StartTracking _ _ | ResetMetrics => true
  | _ => false
  end.

(** A session in which two arrivals 100 ms apart gave a speed of 100. *)
Definition fastSession : Monitor :=
  fst (run [StartTracking 0 "modelA"; AddTokensAt 100 5; AddTokensAt 200 5]
           init).

(** What an accepted [addTokens] at [now] keeps of the buffer. *)
Definition retained (now cnt : Z) (b : list TokenDataPoint)
    : list TokenDataPoint :=
  filter (fun point => now - 1000 <? timestamp point)
         (b ++ [mkPoint cnt now]).

(** A session with arrivals at 100 ms and 200 ms, the second of [c]
    tokens, and a next arrival at 5000 ms, long after the window. *)
Definition gapSession (c : Z) : Monitor :=
  fst (run [StartTracking 0 "modelA"; AddTokensAt 100 5; AddTokensAt 200 c;
            AddTokensAt 5000 1] init).

(** The five bands of the classification, numbered from 1, each with its
    lower bound included. *)
Definition inBand (k : nat) (speed : Q) : Prop :=
  match k with
  | 1%nat => (speed < 10)%Q
  | 2%nat => (10 <= speed)%Q /\ (speed < 30)%Q
  | 3%nat => (30 <= speed)%Q /\ (speed < 60)%Q
  | 4%nat => (60 <= speed)%Q /\ (speed < 100)%Q
  | 5%nat => (100 <= speed)%Q
  | _ => False
  end.

Definition indicator (k : nat) : N :=
  match k with
  | 1%nat => SNAIL
  | 2%nat => WALKER
  | 3%nat => RUNNER
  | 4%nat => CAR
  | _ => ROCKET
  end.

(** A display refresh is an assignment to the status bar text. *)
Definition isRefresh (e : Effect) : bool :=
  match e with
  | StatusBarText _ => true
  | _ => false
  end.

Definition refreshed (effs : list Effect) : bool := existsb isRefresh effs.

(** The clock reading a call hands to the throttle gate. *)
Definition displayClock (c : Call) : Z :=
  match c with
  | AddTokens _ _ nowDisplay _ _ => nowDisplay
  | _ => 0
  end.

(** The instants, in order, at which a run of calls refreshed the
    display. *)
Fixpoint refreshInstants (cs : list Call) (m : Monitor) : list Z :=
  match cs with
  | [] => []
  | c :: cs' =>
    let (m', effs) := step c m in
    (if refreshed effs then [displayClock c] else [])
      ++ refreshInstants cs' m'
  end.

(** Two instants at least [DISPLAY_THROTTLE_MS] apart, in this order. *)
Definition apart (a b : Z) : Prop := DISPLAY_THROTTLE_MS <= b - a.

(** Twenty-five milliseconds between calls: only every fourth refreshes. *)
Definition burst : list Call :=
  [StartTracking 1000 "modelA";
   AddTokensAt 1000 1; AddTokensAt 1025 1; AddTokensAt 1050 1;
   AddTokensAt 1075 1; AddTokensAt 1100 1; AddTokensAt 1125 1;
   AddTokensAt 1199 1; AddTokensAt 1200 1].

(** Effects by kind. *)
Definition isHide (e : Effect) : bool :=
  match e with
  | StatusBarHide => true
  | _ => false
  end.

Definition isMetricsUpdated (e : Effect) : bool :=
  match e with
  | Emit (metricsUpdated _) => true
  | _ => false
  end.

Definition isEmit (e : Effect) : bool :=
  match e with
  | Emit _ => true
  | _ => false
  end.

(** The snapshots a list of effects broadcasts, with [metricsUpdated] or
    with [trackingEnded]. *)
Definition snapshotsOf (effs : list Effect) : list TokenSpeedMetrics :=
  flat_map (fun e => match e with
                     | Emit (metricsUpdated c) | Emit (trackingEnded c) => [c]
                     | _ => []
                     end) effs.

(** The timer callbacks. *)
Definition isCallback (c : Call) : bool :=
  match c with
  | MetricsInterval | HideTimeout => true
  | _ => false
  end.

(** What the producer and the broadcaster can send between two
    lifecycle calls. *)
Definition isTraffic (c : Call) : bool :=
  match c with
  | AddTokens _ _ _ _ _ | MetricsInterval => true
  | _ => false
  end.

Definition isStop (c : Call) : bool :=
  match c with
  | StopTracking => true
  | _ => false
  end.

Definition isStart (c : Call) : bool :=
  match c with
  | StartTracking _ _ => true
  | _ => false
  end.

(** The hide timeout can still fire. *)
Definition hidePending (m : Monitor) : bool :=
  match hideTimeout m with
  | Some t => pending t
  | None => false
  end.

(** The readings [addTokens] takes for its timestamps never go back,
    starting from [t]. *)
Fixpoint clockOrdered (t : Z) (cs : list Call) : Prop :=
  match cs with
  | [] => True
  | AddTokens now _ _ _ _ :: cs' => t <= now /\ clockOrdered now cs'
  | _ :: cs' => clockOrdered t cs'
  end.

Definition timestampsSorted (b : list TokenDataPoint) : Prop :=
  StronglySorted Z.le (map timestamp b).

(** All speeds and the total of a snapshot are zero or more. *)
Definition nonNegative (c : TokenSpeedMetrics) : Prop :=
  (0 <= currentSpeed c)%Q /\ (0 <= averageSpeed c)%Q /\
  (0 <= peakSpeed c)%Q /\ 0 <= totalTokens c.

(** ** The stream handler

    [StreamHandler.handleApiStream] reads an asynchronous stream of chunks
    and reports text chunks as events.  The stream is the list of what its
    iterator delivers, a chunk or a rejection (nothing after a rejection
    is requested); [countTokens], the token-counting utility the handler
    awaits, is a parameter that gives the count or rejects ([None]).  The
    result holds the handler's field after the call, the events emitted in
    order, and the resolved text ([None]: the returned promise rejects). *)

Module StreamHandler.

Record ApiStreamChunk := mkChunk {
  type : string;
  text : string   (* read for chunks of type "text" only *)
}.

Inductive StreamItem :=
| Yield (chunk : ApiStreamChunk)
| Reject.

(** [ChunkData]: the [text] and [tokenCount] of one text chunk. *)
Record ChunkData := mkChunkData {
  dataText : string;
  tokenCount : Z
}.

Inductive HandlerEvent :=
| streamStarted (modelName : string)
| chunkReceived (data : ChunkData)
| streamEnded.

Record Handler := mkHandler {
  modelName : string;
  hasStarted : bool
}.

Record Outcome := mkOutcome {
  handler : Handler;
  emitted : list HandlerEvent;
  resolved : option string
}.

Definition emitFirst (evs : list HandlerEvent) (o : Outcome) : Outcome :=
  mkOutcome (handler o) (evs ++ emitted o) (resolved o).

(** The [for await] loop and what follows it, from the handler's field
    and [fullText] as they stand. *)
Fixpoint consume (countTokens : string -> option Z) (stream : list StreamItem)
    (h : Handler) (fullText : string) : Outcome :=
  match stream with
  | [] =>
    mkOutcome h (if hasStarted h then [streamEnded] else []) (Some fullText)
  | Reject :: _ => mkOutcome h [] None
  | Yield chunk :: rest =>
    if String.eqb (type chunk) "text" then
      let started :=
        if negb (hasStarted h) then [streamStarted (modelName h)] else [] in
      let h := mkHandler (modelName h) true in
      match countTokens (text chunk) with
      | None => mkOutcome h started None
      | Some n =>
        emitFirst (started ++ [chunkReceived (mkChunkData (text chunk) n)])
                  (consume countTokens rest h
                           (fullText ++ text chunk)%string)
      end
    else consume countTokens rest h fullText
  end.

Definition handleApiStream (countTokens : string -> option Z)
    (stream : list StreamItem) (h : Handler) : Outcome :=
  consume countTokens stream h ""%string.

(** The texts of the text chunks of a stream, in order. *)
Fixpoint textsOf (stream : list StreamItem) : list string :=
  match stream with
  | [] => []
  | Yield chunk :: rest =>
    if String.eqb (type chunk) "text" then text chunk :: textsOf rest
    else textsOf rest
  | Reject :: rest => textsOf rest
  end.

(** Nothing rejects: the stream delivers chunks only and [countTokens]
    gives a count for every text chunk. *)
Fixpoint completes (countTokens : string -> option Z)
    (stream : list StreamItem) : bool :=
  match stream with
  | [] => true
  | Reject :: _ => false
  | Yield chunk :: rest =>
    (if String.eqb (type chunk) "text"
     then match countTokens (text chunk) with Some _ => true | None => false end
     else true) && completes countTokens rest
  end.

Definition reported (countTokens : string -> option Z) (t : string)
    : HandlerEvent :=
  chunkReceived
    (mkChunkData t (match countTokens t with Some n => n | None => 0 end)).

Definition joined (texts : list string) : string :=
  fold_right String.append ""%string texts.

(** A counter for the examples: one token per character. *)
Definition perCharacter (t : string) : option Z :=
  Some (Z.of_nat (String.length t)).

Definition sampleStream : list StreamItem :=
  [Yield (mkChunk "usage" ""); Yield (mkChunk "text" "Hello");
   Yield (mkChunk "reasoning" "hm"); Yield (mkChunk "text" ", world")].

End StreamHandler.

(** ** The details view

    [SpeedDetailsViewProvider] listens to the monitor's three events and
    posts messages to its webview, when one has been resolved.  The script
    of the webview page keeps the chart history and the status line and
    draws the chart.  The texts of the five metric elements are kept as the
    snapshot they were formatted from, and the canvas coordinates as the
    expressions the script computes them with. *)

Module SpeedDetailsViewProvider.

Record HistoryPoint := mkHistoryPoint {
  time : Q;
  speed : Q
}.

(** What [postMessage] sends: [{ type: 'reset' }] or
    [{ metrics, isComplete, type: 'update' }]. *)
Inductive Message :=
| reset
| update (metrics : TokenSpeedMetrics) (isComplete : bool).

(** The provider's fields: whether [view] is set, and [speedHistory]. *)
Record Provider := mkProvider {
  view : bool;
  speedHistory : list HistoryPoint
}.

Definition updateView (metrics : TokenSpeedMetrics) (isComplete : bool)
    (p : Provider) : list Message :=
  if view p then [update metrics isComplete] else [].

(** The three listeners the constructor registers. *)
Definition on (e : Event) (p : Provider) : Provider * list Message :=
  match e with
  | metricsUpdated metrics => (p, updateView metrics false p)
  | trackingEnded metrics => (p, updateView metrics true p)
  | trackingStarted _ =>
    (mkProvider (view p) [], if view p then [reset] else [])
  end.

(** The provider fed with what the monitor did: events reach the
    listeners in the order of their emission. *)
Fixpoint listen (effs : list Effect) (p : Provider)
    : Provider * list Message :=
  match effs with
  | [] => (p, [])
  | Emit e :: effs' =>
    let (p1, ms1) := on e p in
    let (p2, ms2) := listen effs' p1 in (p2, ms1 ++ ms2)
  | _ :: effs' => listen effs' p
  end.

End SpeedDetailsViewProvider.

Module WebviewScript.

Import SpeedDetailsViewProvider.

Definition maxPoints : Z := 60.

(** The numbers the script computes for the canvas.  The script
    computes them in floating point; they are kept here as the
    expressions it evaluates, over the values it reads, and are not
    evaluated. *)
Inductive Num :=
| num (value : Q)
| plus (a b : Num)
| minus (a b : Num)
| times (a b : Num)
| over (a b : Num)
| mathMax (values : list Q).

Inductive CanvasOp :=
| clearRect (x y w h : Num)
| strokeStyle (cssVariable : string)
| lineWidth (w : Num)
| beginPath
| moveTo (x y : Num)
| lineTo (x y : Num)
| stroke.

(** The status element: its text, class and [style.display]. *)
Record StatusElement := mkStatus {
  textContent : string;
  className : string;
  display : string
}.

Record Script := mkScript {
  canvasWidth : Z;          (* set once, from the element's offset size *)
  canvasHeight : Z;
  speedHistory : list HistoryPoint;
  status : StatusElement;
  shown : TokenSpeedMetrics (* what the five metric elements show *)
}.

(** The page as loaded in a canvas of the given size. *)
Definition loaded (width height : Z) : Script :=
  mkScript width height [] (mkStatus "" "status" "none") zeroMetrics.

(** The [forEach] of [drawChart], from position [index] on. *)
Fixpoint plot (padding chartWidth chartHeight maxSpeed : Num) (index : Z)
    (points : list HistoryPoint) : list CanvasOp :=
  match points with
  | [] => []
  | point :: rest =>
    let x :=
      plus padding
           (times (over chartWidth
                        (minus (num (inject_Z maxPoints)) (num (inject_Z 1))))
                  (num (inject_Z index))) in
    let y :=
      minus (plus padding chartHeight)
            (times (over (num (speed point)) maxSpeed) chartHeight) in
    (if index =? 0 then moveTo x y else lineTo x y)
      :: plot padding chartWidth chartHeight maxSpeed (index + 1) rest
  end.

Definition drawChart (s : Script) : list CanvasOp :=
  let width := num (inject_Z (canvasWidth s)) in
  let height := num (inject_Z (canvasHeight s)) in
  clearRect (num (inject_Z 0)) (num (inject_Z 0)) width height ::
  if (List.length (speedHistory s) <? 2)%nat then []
  else
    let padding := num (inject_Z 10) in
    let chartWidth := minus width (times padding (num (inject_Z 2))) in
    let chartHeight := minus height (times padding (num (inject_Z 2))) in
    let maxSpeed :=
      mathMax (map speed (speedHistory s) ++ [inject_Z 10]) in
    [strokeStyle "--vscode-panel-border"; lineWidth (num (1 # 2))]
      ++ flat_map
           (fun i =>
              let y :=
                plus padding
                     (times (over chartHeight (num (inject_Z 5)))
                            (num (inject_Z i))) in
              [beginPath; moveTo padding y; lineTo (minus width padding) y;
               stroke])
           [0; 1; 2; 3; 4; 5]
      ++ [strokeStyle "--vscode-charts-blue"; lineWidth (num (inject_Z 2));
          beginPath]
      ++ plot padding chartWidth chartHeight maxSpeed 0 (speedHistory s)
      ++ [stroke].

Definition set_speedHistory (v : list HistoryPoint) (s : Script) : Script :=
  mkScript (canvasWidth s) (canvasHeight s) v (status s) (shown s).
Definition set_status (v : StatusElement) (s : Script) : Script :=
  mkScript (canvasWidth s) (canvasHeight s) (speedHistory s) v (shown s).
Definition set_shown (v : TokenSpeedMetrics) (s : Script) : Script :=
  mkScript (canvasWidth s) (canvasHeight s) (speedHistory s) (status s) v.

(** The [message] listener of the page. *)
Definition onMessage (message : Message) (s : Script)
    : Script * list CanvasOp :=
  match message with
  | reset =>
    let s := set_speedHistory [] s in
    let ops := drawChart s in
    (set_status (mkStatus (textContent (status s)) (className (status s))
                          "none") s,
     ops)
  | update metrics isComplete =>
    let s := set_shown metrics s in
    let s :=
      if isComplete
      then set_status (mkStatus "Generation Complete" "status complete"
                                "block") s
      else if (List.length (speedHistory s) =? 0)%nat
           then set_status (mkStatus "Tracking..." "status tracking"
                                     "block") s
           else s in
    let s :=
      set_speedHistory
        (speedHistory s
           ++ [mkHistoryPoint (elapsedTime metrics) (currentSpeed metrics)])
        s in
    let s :=
      if (maxPoints <? Z.of_nat (List.length (speedHistory s)))
      then set_speedHistory (tl (speedHistory s)) s
      else s in
    (s, drawChart s)
  end.

(** The page after a list of messages. *)
Fixpoint receive (messages : list Message) (s : Script) : Script :=
  match messages with
  | [] => s
  | message :: rest => receive rest (fst (onMessage message s))
  end.

(** The points that update messages add to the chart. *)
Definition pointsOf (messages : list Message) : list HistoryPoint :=
  flat_map (fun message =>
              match message with
              | update metrics _ =>
                [mkHistoryPoint (elapsedTime metrics) (currentSpeed metrics)]
              | reset => []
              end) messages.

Definition isUpdate (message : Message) : bool :=
  match message with
  | update _ _ => true
  | reset => false
  end.

Definition isProgress (message : Message) : bool :=
  match message with
  | update _ false => true
  | _ => false
  end.

(** What the page shows after the monitor ran the calls [cs] from
    construction, with a resolved view loaded in a canvas of the given
    size. *)
Definition pageAfter (width height : Z) (cs : list Call) : Script :=
  receive (snd (listen (snd (run cs init)) (mkProvider true [])))
          (loaded width height).

(** The message each effect of the monitor becomes for a provider whose
    view is resolved. *)
Definition messageOf (e : Effect) : list Message :=
  match e with
  | Emit (trackingStarted _) => [reset]
  | Emit (metricsUpdated metrics) => [update metrics false]
  | Emit (trackingEnded metrics) => [update metrics true]
  | _ => []
  end.

Definition trackingStatus : StatusElement :=
  mkStatus "Tracking..." "status tracking" "block".

Definition completeStatus : StatusElement :=
  mkStatus "Generation Complete" "status complete" "block".

(** Sixty-two broadcasts of one snapshot. *)
Definition manyUpdates : list Message :=
  repeat (update (mkMetrics (inject_Z 12) (inject_Z 8) (inject_Z 20) 40
                            (inject_Z 5)) false) 62.

End WebviewScript.

(** ** Basic facts *)

Lemma Qltb_lt (x y : Q) : Qltb x y = true <-> (x < y)%Q.
Proof. unfold Qltb, Qlt. apply Z.ltb_lt. Qed.

Lemma Qltb_ge (x y : Q) : Qltb x y = false <-> (y <= x)%Q.
Proof. unfold Qltb, Qle. apply Z.ltb_ge. Qed.

Lemma Qltb_irrefl (x : Q) : Qltb x x = false.
Proof. unfold Qltb. apply Z.ltb_irrefl. Qed.

Lemma seconds_pos (ms : Z) : Qltb 0 (seconds ms) = true <-> 0 < ms.
Proof.
  unfold Qltb, seconds, Qdiv, Qmult, Qinv, inject_Z. simpl.
  rewrite Z.ltb_lt. lia.
Qed.

(** Arrivals of 5 tokens at 0 ms and 500 ms of a session started at 0:
    the snapshot that [stopTracking] emits is the one computed at 500 ms. *)
Example scenario_two_arrivals :
  let c := metricsAfter [StartTracking 0 "modelA"; AddTokensAt 0 5;
                         AddTokensAt 500 5; StopTracking] init in
  totalTokens c = 10 /\ (averageSpeed c == 20)%Q.
Proof. vm_compute. split; reflexivity. Qed.

Arguments Qltb : simpl never.
Arguments seconds : simpl never.

(** Case analysis on the tests of a goal, innermost test first. *)
Ltac split_ifs :=
  repeat (cbn -[Qdiv inject_Z fold_left Z.add Z.sub Z.mul Z.ltb Z.leb
                Nat.ltb List.length];
          match goal with
          | |- context [if ?b then _ else _] =>
            lazymatch b with
            | context [if _ then _ else _] => fail
            | _ => destruct b eqn:?
            end
          end).

Lemma addTokens_tracking now nowSpeed nowDisplay showIcon cnt m :
  isTracking m = true -> cnt <> 0 ->
  addTokens now nowSpeed nowDisplay showIcon cnt m =
  throttledUpdateDisplay nowDisplay showIcon
    (calculateSpeed nowSpeed (ingest now cnt m)).
Proof.
  intros Ht Hc. unfold addTokens. rewrite Ht.
  apply Z.eqb_neq in Hc. rewrite Hc. cbn [negb orb].
  unfold andThen, modify. cbn [app].
  destruct (throttledUpdateDisplay _ _ _). reflexivity.
Qed.

Lemma addTokens_ignored now nowSpeed nowDisplay showIcon cnt m :
  isTracking m = false \/ cnt = 0 ->
  addTokens now nowSpeed nowDisplay showIcon cnt m = (m, []).
Proof.
  intros [Ht | Hc]; unfold addTokens.
  - rewrite Ht. reflexivity.
  - subst cnt. rewrite orb_true_r. reflexivity.
Qed.

(** What [calculateSpeed] leaves alone. *)
Lemma calculateSpeed_frame now m :
  let m' := calculateSpeed now m in
  isTracking m' = isTracking m /\
  startTime m' = startTime m /\
  tokenBuffer m' = tokenBuffer m /\
  lastDisplayUpdate m' = lastDisplayUpdate m /\
  metricsUpdateInterval m' = metricsUpdateInterval m /\
  hideTimeout m' = hideTimeout m /\
  totalTokens (currentMetrics m') = totalTokens (currentMetrics m).
Proof.
  destruct m as [c t s b l i h]. unfold calculateSpeed.
  destruct b as [| p b]; split_ifs; repeat split; reflexivity.
Qed.

(** What [throttledUpdateDisplay] leaves alone: all but
    [lastDisplayUpdate]. *)
Lemma throttledUpdateDisplay_frame now showIcon m :
  let m' := fst (throttledUpdateDisplay now showIcon m) in
  currentMetrics m' = currentMetrics m /\
  isTracking m' = isTracking m /\
  startTime m' = startTime m /\
  tokenBuffer m' = tokenBuffer m /\
  metricsUpdateInterval m' = metricsUpdateInterval m /\
  hideTimeout m' = hideTimeout m.
Proof.
  unfold throttledUpdateDisplay, when, andThen, updateDisplay, modify.
  split_ifs; repeat split; reflexivity.
Qed.

Lemma addTokens_totalTokens now nowSpeed nowDisplay showIcon cnt m :
  isTracking m = true ->
  totalTokens
    (currentMetrics (fst (addTokens now nowSpeed nowDisplay showIcon cnt m))) =
  totalTokens (currentMetrics m) + cnt.
Proof.
  intros Ht. destruct (Z.eq_dec cnt 0) as [-> | Hc].
  - rewrite addTokens_ignored by (right; reflexivity). cbn. lia.
  - rewrite addTokens_tracking by assumption.
    destruct (throttledUpdateDisplay_frame nowDisplay showIcon
                (calculateSpeed nowSpeed (ingest now cnt m))) as [-> _].
    destruct (calculateSpeed_frame nowSpeed (ingest now cnt m))
      as (_ & _ & _ & _ & _ & _ & ->).
    reflexivity.
Qed.

Lemma addTokens_isTracking now nowSpeed nowDisplay showIcon cnt m :
  isTracking (fst (addTokens now nowSpeed nowDisplay showIcon cnt m)) =
  isTracking m.
Proof.
  destruct (isTracking m) eqn:Ht.
  - destruct (Z.eq_dec cnt 0) as [-> | Hc].
    + rewrite addTokens_ignored by (right; reflexivity). exact Ht.
    + rewrite addTokens_tracking by assumption.
      destruct (throttledUpdateDisplay_frame nowDisplay showIcon
                  (calculateSpeed nowSpeed (ingest now cnt m)))
        as (_ & -> & _).
      destruct (calculateSpeed_frame nowSpeed (ingest now cnt m)) as [-> _].
      exact Ht.
  - rewrite addTokens_ignored by (left; exact Ht). exact Ht.
Qed.

Lemma run_cons c cs m :
  fst (run (c :: cs) m) = fst (run cs (fst (step c m))).
Proof.
  cbn [run]. unfold andThen.
  destruct (step c m) as [m1 e1]. cbn [fst].
  destruct (run cs m1). reflexivity.
Qed.

Lemma startTracking_state now modelName m :
  fst (startTracking now modelName m) =
  mkMonitor zeroMetrics true now [] (lastDisplayUpdate m)
            (Some (mkTimer METRICS_UPDATE_INTERVAL_MS true)) None.
Proof.
  unfold startTracking, clearTimeouts, resetMetrics, when, andThen, modify,
    effect.
  destruct m as [c t s b l [i|] [h|]]; reflexivity.
Qed.

(** ** C1: the total is the sum of the counts *)

Lemma sumCounts_cons c cs : sumCounts (c :: cs) = countOf c + sumCounts cs.
Proof. reflexivity. Qed.

Lemma feeding_total cs : forall m,
  Forall feeds cs -> isTracking m = true ->
  totalTokens (metricsAfter cs m) = totalTokens (currentMetrics m) + sumCounts cs.
Proof.
  unfold metricsAfter.
  induction cs as [| c cs IH]; intros m Hcs Ht.
  - cbn. lia.
  - inversion Hcs as [| ? ? Hc Hcs']; subst.
    rewrite run_cons. destruct c; cbn in Hc; try contradiction.
    + rewrite IH; trivial.
      * rewrite sumCounts_cons. cbn [step countOf].
        rewrite addTokens_totalTokens by assumption. lia.
      * cbn [step]. rewrite addTokens_isTracking. exact Ht.
    + assert (Hs : fst (step MetricsInterval m) = m).
      { cbn. unfold onMetricsInterval.
        destruct (metricsUpdateInterval m); [split_ifs |]; reflexivity. }
      rewrite Hs, IH, sumCounts_cons by assumption. cbn [countOf]. lia.
Qed.

(** C1.  After [startTracking], whatever the monitor held before, a
    sequence of [addTokens(c)] calls with [c >= 1] (broadcaster ticks
    allowed in between) leaves [totalTokens] equal to the sum of the
    counts. *)
Theorem totalTokens_is_sum m now modelName cs :
  Forall feeds cs ->
  totalTokens (metricsAfter (StartTracking now modelName :: cs) m) =
  sumCounts cs.
Proof.
  intros Hcs. unfold metricsAfter. rewrite run_cons.
  change (totalTokens (metricsAfter cs (fst (step (StartTracking now modelName) m)))
          = sumCounts cs).
  rewrite feeding_total; trivial.
  - cbn [step]. rewrite startTracking_state. cbn. lia.
  - cbn [step]. rewrite startTracking_state. reflexivity.
Qed.

Lemma totalTokens_is_sum_witness :
  Forall feeds [AddTokensAt 100 5; MetricsInterval; AddTokensAt 200 3] /\
  totalTokens
    (metricsAfter (StartTracking 0 "modelA" ::
                   [AddTokensAt 100 5; MetricsInterval; AddTokensAt 200 3])
                  init) = 8.
Proof.
  assert (H : Forall feeds
                [AddTokensAt 100 5; MetricsInterval; AddTokensAt 200 3]).
  { repeat constructor; cbn; lia. }
  split; [exact H |].
  exact (totalTokens_is_sum init 0 "modelA" _ H).
Defined.

(** ** C2: the cases of the recompute step *)

Lemma currentSpeed_recomputed now m :
  recomputes now (startTime m) (tokenBuffer m) ->
  currentSpeed (currentMetrics (calculateSpeed now m)) =
  (inject_Z (windowSum (tokenBuffer m)) / windowSpan now (tokenBuffer m))%Q.
Proof.
  intros (He & Hl & Hs). destruct m as [c t s b l i h].
  cbn [startTime tokenBuffer] in *.
  apply Qltb_lt in He. apply Nat.ltb_lt in Hl.
  destruct b as [| p b]; [discriminate |].
  apply Qltb_lt in Hs. cbn [windowSpan] in *.
  unfold calculateSpeed.
  cbn [startTime tokenBuffer modify_metrics set_currentMetrics].
  rewrite He, Hl, Hs. split_ifs; reflexivity.
Qed.

Lemma currentSpeed_held now m :
  ~ recomputes now (startTime m) (tokenBuffer m) ->
  currentSpeed (currentMetrics (calculateSpeed now m)) =
  currentSpeed (currentMetrics m).
Proof.
  intros Hn. destruct m as [c t s b l i h].
  cbn [startTime tokenBuffer currentMetrics] in *.
  unfold calculateSpeed.
  destruct b as [| p b]; split_ifs; try reflexivity;
    exfalso; apply Hn; unfold recomputes;
    rewrite <- !Qltb_lt, <- Nat.ltb_lt; cbn [windowSpan]; auto.
Qed.

Lemma speeds_held_at_start now m :
  (seconds (now - startTime m) <= 0)%Q ->
  let c := currentMetrics m in
  let c' := currentMetrics (calculateSpeed now m) in
  currentSpeed c' = currentSpeed c /\
  averageSpeed c' = averageSpeed c /\
  peakSpeed c' = peakSpeed c.
Proof.
  intros He. apply Qltb_ge in He. unfold calculateSpeed.
  rewrite He. cbn. auto.
Qed.

(** C2.  What [calculateSpeed] does to the speeds.  With a non-positive
    elapsed time all three keep their values.  [currentSpeed] becomes
    the window sum over the span since the first buffered arrival exactly
    when the elapsed time is positive, the buffer holds more than one
    arrival and that span is positive; otherwise it keeps its value. *)
Theorem calculateSpeed_cases now m :
  let c := currentMetrics m in
  let c' := currentMetrics (calculateSpeed now m) in
  ((seconds (now - startTime m) <= 0)%Q ->
   currentSpeed c' = currentSpeed c /\
   averageSpeed c' = averageSpeed c /\
   peakSpeed c' = peakSpeed c) /\
  (recomputes now (startTime m) (tokenBuffer m) ->
   currentSpeed c' =
   (inject_Z (windowSum (tokenBuffer m)) / windowSpan now (tokenBuffer m))%Q) /\
  (~ recomputes now (startTime m) (tokenBuffer m) ->
   currentSpeed c' = currentSpeed c).
Proof.
  cbn zeta. split; [| split].
  - apply speeds_held_at_start.
  - apply currentSpeed_recomputed.
  - apply currentSpeed_held.
Qed.

Lemma calculateSpeed_cases_witness :
  recomputes 2000 (startTime sampleMonitor) (tokenBuffer sampleMonitor) /\
  (currentSpeed (currentMetrics (calculateSpeed 2000 sampleMonitor)) == 24)%Q /\
  ~ recomputes 1000 (startTime sampleMonitor) (tokenBuffer sampleMonitor) /\
  currentSpeed (currentMetrics (calculateSpeed 1000 sampleMonitor)) = 0%Q.
Proof.
  assert (H1 : recomputes 2000 (startTime sampleMonitor)
                          (tokenBuffer sampleMonitor)).
  { unfold recomputes. rewrite <- !Qltb_lt.
    split; [| split]; [reflexivity | cbn; lia | reflexivity]. }
  assert (H0 : (seconds (1000 - startTime sampleMonitor) <= 0)%Q).
  { apply Qltb_ge. reflexivity. }
  assert (H2 : ~ recomputes 1000 (startTime sampleMonitor)
                            (tokenBuffer sampleMonitor)).
  { intros (He & _). apply Qltb_lt in He. discriminate He. }
  split; [exact H1 |]. split.
  - rewrite (proj1 (proj2 (calculateSpeed_cases 2000 sampleMonitor)) H1).
    reflexivity.
  - split; [exact H2 |].
    exact (proj1 (proj1 (calculateSpeed_cases 1000 sampleMonitor) H0)).
Defined.

(** ** C7: the session average, and idempotence *)

Lemma calculateSpeed_elapsedTime now m :
  elapsedTime (currentMetrics (calculateSpeed now m)) =
  seconds (now - startTime m).
Proof.
  destruct m as [c t s b l i h]. unfold calculateSpeed.
  destruct b as [| p b]; split_ifs; reflexivity.
Qed.

Lemma calculateSpeed_averageSpeed now m :
  averageSpeed (currentMetrics (calculateSpeed now m)) =
  if Qltb 0 (seconds (now - startTime m))
  then (inject_Z (totalTokens (currentMetrics m)) /
        seconds (now - startTime m))%Q
  else averageSpeed (currentMetrics m).
Proof.
  destruct m as [c t s b l i h]. unfold calculateSpeed.
  destruct b as [| p b]; split_ifs; reflexivity.
Qed.

Lemma calculateSpeed_idempotent now m :
  calculateSpeed now (calculateSpeed now m) = calculateSpeed now m.
Proof.
  destruct m as [c t s b l i h]. unfold calculateSpeed.
  destruct b as [| p b]; split_ifs; try reflexivity; try congruence;
    rewrite Qltb_irrefl in *; discriminate.
Qed.

(** C7.  [calculateSpeed] at instant [now] stores
    [(now - startTime) / 1000] as [elapsedTime] and leaves [totalTokens]
    as it found it.  Whenever that elapsed time is positive,
    [averageSpeed] becomes [totalTokens / elapsedTime], the total of the
    session over the time since its start; otherwise it keeps its value.
    The result does not depend on the buffer, and a second
    [calculateSpeed] at the same instant changes nothing. *)
Theorem averageSpeed_whole_session now m :
  let m' := calculateSpeed now m in
  elapsedTime (currentMetrics m') = seconds (now - startTime m) /\
  totalTokens (currentMetrics m') = totalTokens (currentMetrics m) /\
  ((0 < elapsedTime (currentMetrics m'))%Q ->
   averageSpeed (currentMetrics m') =
   (inject_Z (totalTokens (currentMetrics m')) /
    elapsedTime (currentMetrics m'))%Q /\
   averageSpeed (currentMetrics m') =
   (inject_Z (totalTokens (currentMetrics m)) /
    seconds (now - startTime m))%Q) /\
  ((elapsedTime (currentMetrics m') <= 0)%Q ->
   averageSpeed (currentMetrics m') = averageSpeed (currentMetrics m)) /\
  (forall b,
     averageSpeed (currentMetrics (calculateSpeed now (set_tokenBuffer b m))) =
     averageSpeed (currentMetrics m')) /\
  calculateSpeed now m' = m'.
Proof.
  cbn zeta.
  destruct (calculateSpeed_frame now m) as (_ & _ & _ & _ & _ & _ & Htotal).
  rewrite calculateSpeed_elapsedTime, calculateSpeed_averageSpeed, Htotal.
  split; [reflexivity |]. split; [reflexivity |].
  split; [| split; [| split]].
  - intros He. apply Qltb_lt in He. rewrite He. split; reflexivity.
  - intros He. apply Qltb_ge in He. rewrite He. reflexivity.
  - intros b. rewrite !calculateSpeed_averageSpeed. reflexivity.
  - apply calculateSpeed_idempotent.
Qed.

Lemma averageSpeed_whole_session_witness :
  let m' := calculateSpeed 2000 sampleMonitor in
  (0 < elapsedTime (currentMetrics m'))%Q /\
  (elapsedTime (currentMetrics m') == 1)%Q /\
  totalTokens (currentMetrics m') = 12 /\
  (averageSpeed (currentMetrics m') == 12)%Q /\
  (elapsedTime (currentMetrics (calculateSpeed 900 sampleMonitor)) <= 0)%Q /\
  averageSpeed (currentMetrics (calculateSpeed 900 sampleMonitor)) = 0%Q /\
  calculateSpeed 2000 m' = m'.
Proof.
  cbn zeta.
  destruct (averageSpeed_whole_session 2000 sampleMonitor)
    as (Hel & Htot & Havg & _ & _ & Hidem).
  destruct (averageSpeed_whole_session 900 sampleMonitor)
    as (_ & _ & _ & Hkeep & _).
  cbn zeta in *.
  assert (He : (0 < elapsedTime
                      (currentMetrics (calculateSpeed 2000 sampleMonitor)))%Q).
  { apply Qltb_lt. reflexivity. }
  assert (Hn : (elapsedTime
                  (currentMetrics (calculateSpeed 900 sampleMonitor)) <= 0)%Q).
  { apply Qltb_ge. reflexivity. }
  split; [exact He |].
  split; [rewrite Hel; reflexivity |].
  split; [rewrite Htot; reflexivity |].
  split; [rewrite (proj2 (Havg He)); reflexivity |].
  split; [exact Hn |].
  split; [exact (Hkeep Hn) | exact Hidem].
Defined.

(** ** C3: the peak ratchet *)

Lemma calculateSpeed_peakCovers now m :
  peakCovers m -> peakCovers (calculateSpeed now m).
Proof.
  unfold peakCovers. destruct m as [c t s b l i h]. unfold calculateSpeed.
  intros H. cbn [currentMetrics] in H.
  destruct b as [| p b]; split_ifs; trivial;
    try apply Qle_refl;
    match goal with
    | Hf : Qltb _ _ = false |- _ => apply Qltb_ge in Hf; exact Hf
    end.
Qed.

Lemma calculateSpeed_peak_grows now m :
  (peakSpeed (currentMetrics m) <=
   peakSpeed (currentMetrics (calculateSpeed now m)))%Q.
Proof.
  destruct m as [c t s b l i h]. unfold calculateSpeed.
  destruct b as [| p b]; split_ifs; try apply Qle_refl;
    apply Qlt_le_weak, Qltb_lt; assumption.
Qed.

Lemma step_metrics c m :
  resetsMetrics c = false ->
  currentMetrics (fst (step c m)) = currentMetrics m \/
  exists now nowSpeed cnt,
    currentMetrics (fst (step c m)) =
    currentMetrics (calculateSpeed nowSpeed (ingest now cnt m)).
Proof.
  intros Hc. destruct c; try discriminate Hc; cbn [step].
  - destruct (isTracking m) eqn:Ht; [destruct (Z.eq_dec cnt 0) as [-> | Hn] |].
    + left. rewrite addTokens_ignored by (right; reflexivity). reflexivity.
    + right. exists now, nowSpeed, cnt.
      rewrite addTokens_tracking by assumption.
      apply (throttledUpdateDisplay_frame nowDisplay showIcon).
    + left. rewrite addTokens_ignored by (left; exact Ht). reflexivity.
  - left. unfold stopTracking, clearTimeouts, when, andThen, modify.
    destruct m as [c t s b l [i|] [h|]]; reflexivity.
  - left. unfold onMetricsInterval.
    destruct (metricsUpdateInterval m); split_ifs; reflexivity.
  - left. unfold onHideTimeout.
    destruct (hideTimeout m); split_ifs; reflexivity.
  - left. unfold dispose, clearTimeouts, when, andThen, modify, effect.
    destruct m as [c t s b l [i|] [h|]]; reflexivity.
Qed.

Lemma step_resets c m :
  resetsMetrics c = true -> currentMetrics (fst (step c m)) = zeroMetrics.
Proof.
  intros Hc. destruct c; try discriminate Hc; cbn [step].
  - rewrite startTracking_state. reflexivity.
  - reflexivity.
Qed.

Lemma step_peakCovers c m : peakCovers m -> peakCovers (fst (step c m)).
Proof.
  intros H. destruct (resetsMetrics c) eqn:Hc.
  - unfold peakCovers. rewrite step_resets by assumption. apply Qle_refl.
  - destruct (step_metrics c m Hc) as [E | (now & nowSpeed & cnt & E)];
      unfold peakCovers; rewrite E; [exact H |].
    apply calculateSpeed_peakCovers. exact H.
Qed.

Lemma run_peakCovers cs : forall m,
  peakCovers m -> peakCovers (fst (run cs m)).
Proof.
  induction cs as [| c cs IH]; intros m H; [exact H |].
  rewrite run_cons. apply IH, step_peakCovers, H.
Qed.

(** C3, as the code has it.  [peakSpeed >= currentSpeed] holds in every
    state the monitor reaches from construction and is kept by every
    call.  Every call other than [startTracking] and [resetMetrics] leaves
    [peakSpeed] at least as large as it was.  [startTracking] sets it to
    zero, and so does the public [resetMetrics] on its own. *)
Theorem peakSpeed_ratchet :
  (forall cs, peakCovers (fst (run cs init))) /\
  (forall c m, peakCovers m -> peakCovers (fst (step c m))) /\
  (forall c m, resetsMetrics c = false ->
     (peakSpeed (currentMetrics m) <=
      peakSpeed (currentMetrics (fst (step c m))))%Q) /\
  (forall c m, resetsMetrics c = true ->
     peakSpeed (currentMetrics (fst (step c m))) = 0%Q).
Proof.
  split; [| split; [| split]].
  - intros cs. apply run_peakCovers. unfold peakCovers. cbn. apply Qle_refl.
  - apply step_peakCovers.
  - intros c m Hc.
    destruct (step_metrics c m Hc) as [E | (now & nowSpeed & cnt & E)];
      rewrite E; [apply Qle_refl |].
    apply (calculateSpeed_peak_grows nowSpeed (ingest now cnt m)).
  - intros c m Hc. rewrite step_resets by assumption. reflexivity.
Qed.

Lemma peakSpeed_ratchet_witness :
  peakCovers fastSession /\
  peakCovers (fst (step (AddTokensAt 250 1) fastSession)) /\
  resetsMetrics StopTracking = false /\
  (peakSpeed (currentMetrics fastSession) <=
   peakSpeed (currentMetrics (fst (step StopTracking fastSession))))%Q /\
  resetsMetrics (StartTracking 300 "modelB") = true /\
  peakSpeed (currentMetrics
               (fst (step (StartTracking 300 "modelB") fastSession))) = 0%Q.
Proof.
  destruct peakSpeed_ratchet as (Hreach & Hstep & Hgrow & Hzero).
  assert (H : peakCovers fastSession) by apply Hreach.
  split; [exact H |].
  split; [exact (Hstep (AddTokensAt 250 1) fastSession H) |].
  split; [reflexivity |].
  split; [exact (Hgrow StopTracking fastSession eq_refl) |].
  split; [reflexivity |].
  exact (Hzero (StartTracking 300 "modelB") fastSession eq_refl).
Defined.

(** Within a session (no [startTracking] in between, the monitor still
    tracking with the same start time) a call of [resetMetrics] takes
    [peakSpeed] from 100 down to 0. *)
Lemma peakSpeed_reset_midsession :
  let m := fastSession in
  let m' := fst (step ResetMetrics m) in
  isTracking m = true /\ isTracking m' = true /\
  startTime m' = startTime m /\
  (peakSpeed (currentMetrics m) == 100)%Q /\
  peakSpeed (currentMetrics m') = 0%Q /\
  ~ (peakSpeed (currentMetrics m) <= peakSpeed (currentMetrics m'))%Q.
Proof.
  vm_compute. repeat split; try reflexivity. intros H. apply H. reflexivity.
Qed.

(** ** C4: negative counts *)

(** C4, as the code has it.  While tracking, [addTokens] adds its count
    to [totalTokens] whatever its sign: a negative count lowers the
    total, a count of zero or more does not. *)
Theorem addTokens_adds_count now nowSpeed nowDisplay showIcon cnt m :
  isTracking m = true ->
  let total' :=
    totalTokens
      (currentMetrics
         (fst (addTokens now nowSpeed nowDisplay showIcon cnt m))) in
  total' = totalTokens (currentMetrics m) + cnt /\
  (0 <= cnt -> totalTokens (currentMetrics m) <= total') /\
  (cnt < 0 -> total' < totalTokens (currentMetrics m)).
Proof.
  intros Ht. cbn zeta. rewrite addTokens_totalTokens by assumption. lia.
Qed.

Lemma addTokens_adds_count_witness :
  isTracking fastSession = true /\
  totalTokens
    (currentMetrics (fst (addTokens 300 300 300 true 4 fastSession))) = 14 /\
  totalTokens
    (currentMetrics (fst (addTokens 300 300 300 true (-4) fastSession))) = 6.
Proof.
  assert (Ht : isTracking fastSession = true) by reflexivity.
  split; [exact Ht |]. split.
  - exact (proj1 (addTokens_adds_count 300 300 300 true 4 fastSession Ht)).
  - exact (proj1 (addTokens_adds_count 300 300 300 true (-4) fastSession Ht)).
Defined.

(** A negative count is neither rejected nor clamped: the total falls
    from 10 to 3. *)
Lemma negative_count_lowers_total :
  let m := fastSession in
  let m' := fst (step (AddTokensAt 300 (-7)) m) in
  isTracking m = true /\
  totalTokens (currentMetrics m) = 10 /\
  totalTokens (currentMetrics m') = 3 /\
  ~ totalTokens (currentMetrics m) <= totalTokens (currentMetrics m').
Proof.
  vm_compute. repeat split; try reflexivity. intros H. apply H. reflexivity.
Qed.

(** ** C5: ignored calls *)

(** C5.  When the monitor is not tracking, or the count is zero,
    [addTokens] returns the monitor as it was (buffer, snapshot, flags,
    timers, throttle stamp) and produces no effect; [addTokens(3)] on a
    freshly constructed monitor leaves [totalTokens] at zero. *)
Theorem addTokens_noop now nowSpeed nowDisplay showIcon :
  (forall cnt m,
     isTracking m = false \/ cnt = 0 ->
     addTokens now nowSpeed nowDisplay showIcon cnt m = (m, [])) /\
  addTokens now nowSpeed nowDisplay showIcon 3 init = (init, []) /\
  totalTokens
    (currentMetrics
       (fst (addTokens now nowSpeed nowDisplay showIcon 3 init))) = 0.
Proof.
  split; [| split].
  - intros cnt m H. apply addTokens_ignored, H.
  - reflexivity.
  - reflexivity.
Qed.

Lemma addTokens_noop_witness :
  (isTracking fastSession = false \/ 0 = 0) /\
  addTokens 300 300 300 true 0 fastSession = (fastSession, []) /\
  (isTracking init = false \/ 3 = 0) /\
  addTokens 300 300 300 true 3 init = (init, []).
Proof.
  assert (H0 : isTracking fastSession = false \/ 0 = 0) by (right; reflexivity).
  assert (H1 : isTracking init = false \/ 3 = 0) by (left; reflexivity).
  split; [exact H0 |].
  split; [exact (proj1 (addTokens_noop 300 300 300 true) 0 fastSession H0) |].
  split; [exact H1 |].
  exact (proj1 (addTokens_noop 300 300 300 true) 3 init H1).
Defined.

(** ** C6: eviction and the window of [currentSpeed] *)

Lemma ingest_fields now cnt m :
  tokenBuffer (ingest now cnt m) = retained now cnt (tokenBuffer m) /\
  startTime (ingest now cnt m) = startTime m /\
  currentSpeed (currentMetrics (ingest now cnt m)) =
  currentSpeed (currentMetrics m).
Proof. repeat split; reflexivity. Qed.

Lemma addTokens_tokenBuffer now nowSpeed nowDisplay showIcon cnt m :
  isTracking m = true -> cnt <> 0 ->
  tokenBuffer (fst (addTokens now nowSpeed nowDisplay showIcon cnt m)) =
  retained now cnt (tokenBuffer m).
Proof.
  intros Ht Hc. rewrite addTokens_tracking by assumption.
  destruct (throttledUpdateDisplay_frame nowDisplay showIcon
              (calculateSpeed nowSpeed (ingest now cnt m)))
    as (_ & _ & _ & -> & _).
  destruct (calculateSpeed_frame nowSpeed (ingest now cnt m))
    as (_ & _ & -> & _).
  reflexivity.
Qed.

Lemma addTokens_currentSpeed now nowSpeed nowDisplay showIcon cnt m :
  isTracking m = true -> cnt <> 0 ->
  currentSpeed
    (currentMetrics (fst (addTokens now nowSpeed nowDisplay showIcon cnt m))) =
  currentSpeed (currentMetrics (calculateSpeed nowSpeed (ingest now cnt m))).
Proof.
  intros Ht Hc. rewrite addTokens_tracking by assumption.
  destruct (throttledUpdateDisplay_frame nowDisplay showIcon
              (calculateSpeed nowSpeed (ingest now cnt m))) as [-> _].
  reflexivity.
Qed.

(** C6, as the code has it.  An [addTokens] that is not ignored keeps
    exactly the arrivals (the new one included) whose timestamp is
    strictly greater than [now - 1000], 1000 ms being
    [SPEED_BUFFER_SIZE * DISPLAY_THROTTLE_MS].  When that call assigns
    [currentSpeed], the value is computed from the kept arrivals alone;
    when it does not (at most one arrival kept, or no positive span or
    elapsed time), [currentSpeed] stays what it was. *)
Theorem addTokens_window now nowSpeed nowDisplay showIcon cnt m :
  isTracking m = true -> cnt <> 0 ->
  let m' := fst (addTokens now nowSpeed nowDisplay showIcon cnt m) in
  let kept := retained now cnt (tokenBuffer m) in
  SPEED_BUFFER_SIZE * DISPLAY_THROTTLE_MS = 1000 /\
  tokenBuffer m' = kept /\
  (forall p, In p (tokenBuffer m') <->
             In p (tokenBuffer m ++ [mkPoint cnt now]) /\
             now - 1000 < timestamp p) /\
  (recomputes nowSpeed (startTime m) kept ->
   currentSpeed (currentMetrics m') =
   (inject_Z (windowSum kept) / windowSpan nowSpeed kept)%Q) /\
  (~ recomputes nowSpeed (startTime m) kept ->
   currentSpeed (currentMetrics m') = currentSpeed (currentMetrics m)).
Proof.
  intros Ht Hc. cbn zeta.
  rewrite addTokens_tokenBuffer, addTokens_currentSpeed by assumption.
  destruct (ingest_fields now cnt m) as (Hb & Hs & Hv).
  split; [reflexivity |]. split; [reflexivity |]. split; [| split].
  - intros p. unfold retained. rewrite filter_In, Z.ltb_lt. reflexivity.
  - intros Hr. rewrite <- Hb. apply currentSpeed_recomputed.
    rewrite Hb, Hs. exact Hr.
  - intros Hr. rewrite <- Hv. apply currentSpeed_held.
    rewrite Hb, Hs. exact Hr.
Qed.

Lemma addTokens_window_witness :
  isTracking fastSession = true /\ 5 <> 0 /\
  tokenBuffer (fst (addTokens 1150 1150 1150 true 5 fastSession)) =
  [mkPoint 5 200; mkPoint 5 1150] /\
  (currentSpeed
     (currentMetrics (fst (addTokens 1150 1150 1150 true 5 fastSession)))
   == 200 # 19)%Q /\
  currentSpeed
    (currentMetrics (fst (addTokens 5000 5000 5000 true 5 fastSession))) =
  currentSpeed (currentMetrics fastSession).
Proof.
  assert (Ht : isTracking fastSession = true) by reflexivity.
  assert (Hc : 5 <> 0) by discriminate.
  assert (Hr : recomputes 1150 (startTime fastSession)
                 (retained 1150 5 (tokenBuffer fastSession))).
  { unfold recomputes. rewrite <- !Qltb_lt.
    split; [| split]; [reflexivity | vm_compute; lia | reflexivity]. }
  assert (Hn : ~ recomputes 5000 (startTime fastSession)
                   (retained 5000 5 (tokenBuffer fastSession))).
  { intros (_ & Hl & _). vm_compute in Hl. lia. }
  split; [exact Ht |]. split; [exact Hc |]. split; [| split].
  - exact (proj1 (proj2 (addTokens_window 1150 1150 1150 true 5 fastSession
                           Ht Hc))).
  - rewrite (proj1 (proj2 (proj2 (proj2
               (addTokens_window 1150 1150 1150 true 5 fastSession Ht Hc))))
               Hr).
    reflexivity.
  - exact (proj2 (proj2 (proj2 (proj2
             (addTokens_window 5000 5000 5000 true 5 fastSession Ht Hc))))
             Hn).
Defined.

(** Two such sessions that differ only in the count of the arrival at
    200 ms.  After the arrival at 5000 ms the buffer holds that arrival
    alone in both, yet [currentSpeed] still shows the value computed at
    200 ms and differs between the two. *)
Lemma evicted_arrival_still_shown :
  tokenBuffer (gapSession 5) = [mkPoint 1 5000] /\
  tokenBuffer (gapSession 7) = [mkPoint 1 5000] /\
  (currentSpeed (currentMetrics (gapSession 5)) == 100)%Q /\
  (currentSpeed (currentMetrics (gapSession 7)) == 120)%Q /\
  ~ (currentSpeed (currentMetrics (gapSession 5)) ==
     currentSpeed (currentMetrics (gapSession 7)))%Q.
Proof.
  vm_compute. repeat split; try reflexivity. discriminate.
Qed.

(** ** C9: the icon bands *)

Lemma inBand_range k speed : inBand k speed -> (1 <= k <= 5)%nat.
Proof.
  destruct k as [| [| [| [| [| [| k]]]]]]; cbn; intros H;
    try contradiction; lia.
Qed.

Ltac band_cases k H :=
  assert (k = 1 \/ k = 2 \/ k = 3 \/ k = 4 \/ k = 5)%nat
    as [-> | [-> | [-> | [-> | ->]]]] by (clear - H; lia).

Lemma getSpeedIcon_inBand speed :
  exists k, inBand k speed /\ getSpeedIcon speed = indicator k.
Proof.
  unfold getSpeedIcon.
  destruct (Qltb speed (inject_Z 10)) eqn:H10;
    [exists 1%nat; split; [apply Qltb_lt, H10 | reflexivity] |].
  destruct (Qltb speed (inject_Z 30)) eqn:H30;
    [exists 2%nat; split; [split; [apply Qltb_ge, H10 | apply Qltb_lt, H30]
                          | reflexivity] |].
  destruct (Qltb speed (inject_Z 60)) eqn:H60;
    [exists 3%nat; split; [split; [apply Qltb_ge, H30 | apply Qltb_lt, H60]
                          | reflexivity] |].
  destruct (Qltb speed (inject_Z 100)) eqn:H100;
    [exists 4%nat; split; [split; [apply Qltb_ge, H60 | apply Qltb_lt, H100]
                          | reflexivity] |].
  exists 5%nat. split; [apply Qltb_ge, H100 | reflexivity].
Qed.

Lemma inBand_unique speed j k : inBand j speed -> inBand k speed -> j = k.
Proof.
  intros Hj Hk.
  pose proof (inBand_range _ _ Hj) as Rj.
  pose proof (inBand_range _ _ Hk) as Rk.
  destruct speed as [n d].
  band_cases j Rj; band_cases k Rk; try reflexivity; exfalso;
    unfold inBand, Qlt, Qle in *; cbn in *; lia.
Qed.

(** C9.  [getSpeedIcon] puts every speed in exactly one of five bands,
    [< 10], [10 <= . < 30], [30 <= . < 60], [60 <= . < 100], [100 <= .],
    and returns that band's indicator; the five indicators differ from
    one another; 9.9 is in band 1, 10 in band 2 and 100 in band 5. *)
Theorem getSpeedIcon_bands :
  (forall speed k,
     inBand k speed <->
     (1 <= k <= 5)%nat /\ getSpeedIcon speed = indicator k) /\
  (forall speed, exists k, inBand k speed /\
                           forall j, inBand j speed -> j = k) /\
  (forall j k, (1 <= j <= 5)%nat -> (1 <= k <= 5)%nat ->
               indicator j = indicator k -> j = k) /\
  getSpeedIcon (99 # 10) = indicator 1 /\
  getSpeedIcon (10 # 1) = indicator 2 /\
  getSpeedIcon (100 # 1) = indicator 5.
Proof.
  assert (Hinj : forall j k, (1 <= j <= 5)%nat -> (1 <= k <= 5)%nat ->
                             indicator j = indicator k -> j = k).
  { intros j k Hj Hk.
    band_cases j Hj; band_cases k Hk;
      intros E; try reflexivity; discriminate E. }
  split; [| split; [| split; [exact Hinj | repeat split]]].
  - intros speed k. split.
    + intros Hk. split; [eapply inBand_range, Hk |].
      destruct (getSpeedIcon_inBand speed) as (k' & Hk' & ->).
      f_equal. eapply inBand_unique; eassumption.
    + intros [Hr E].
      destruct (getSpeedIcon_inBand speed) as (k' & Hk' & E').
      rewrite E' in E.
      rewrite <- (Hinj k' k (inBand_range _ _ Hk') Hr E). exact Hk'.
  - intros speed. destruct (getSpeedIcon_inBand speed) as (k & Hk & _).
    exists k. split; [exact Hk |].
    intros j Hj. eapply inBand_unique; eassumption.
Qed.

Lemma getSpeedIcon_bands_witness :
  inBand 2 (10 # 1) /\
  ((1 <= 2 <= 5)%nat /\ getSpeedIcon (10 # 1) = indicator 2) /\
  inBand 4 (995 # 10).
Proof.
  assert (H2 : inBand 2 (10 # 1)).
  { split; [apply Qle_refl | reflexivity]. }
  assert (H4 : (1 <= 4 <= 5)%nat /\ getSpeedIcon (995 # 10) = indicator 4).
  { split; [lia | reflexivity]. }
  split; [exact H2 |].
  split; [exact (proj1 (proj1 getSpeedIcon_bands (10 # 1) 2%nat) H2) |].
  exact (proj2 (proj1 getSpeedIcon_bands (995 # 10) 4%nat) H4).
Defined.

(** ** C8: the display throttle *)

Lemma throttledUpdateDisplay_gate now showIcon m :
  isTracking m = true ->
  let r := throttledUpdateDisplay now showIcon m in
  (refreshed (snd r) = true <->
   DISPLAY_THROTTLE_MS <= now - lastDisplayUpdate m) /\
  (refreshed (snd r) = true -> lastDisplayUpdate (fst r) = now) /\
  (refreshed (snd r) = false ->
   lastDisplayUpdate (fst r) = lastDisplayUpdate m).
Proof.
  intros Ht. unfold throttledUpdateDisplay, when, andThen, updateDisplay,
    modify. rewrite Ht. cbn [negb]. cbn zeta.
  destruct (DISPLAY_THROTTLE_MS <=? now - lastDisplayUpdate m) eqn:Hg; cbn.
  - apply Z.leb_le in Hg. repeat split; trivial; discriminate.
  - apply Z.leb_gt in Hg. repeat split; trivial; try discriminate.
    intros; lia.
Qed.

Lemma addTokens_gate now nowSpeed nowDisplay showIcon cnt m :
  isTracking m = true -> cnt <> 0 ->
  let r := addTokens now nowSpeed nowDisplay showIcon cnt m in
  (refreshed (snd r) = true <->
   DISPLAY_THROTTLE_MS <= nowDisplay - lastDisplayUpdate m) /\
  (refreshed (snd r) = true -> lastDisplayUpdate (fst r) = nowDisplay) /\
  (refreshed (snd r) = false ->
   lastDisplayUpdate (fst r) = lastDisplayUpdate m).
Proof.
  intros Ht Hc. cbn zeta. rewrite addTokens_tracking by assumption.
  pose proof (calculateSpeed_frame nowSpeed (ingest now cnt m))
    as (Ht' & _ & _ & Hl & _).
  change (isTracking (ingest now cnt m)) with (isTracking m) in Ht'.
  change (lastDisplayUpdate (ingest now cnt m))
    with (lastDisplayUpdate m) in Hl.
  rewrite <- Hl. apply throttledUpdateDisplay_gate. congruence.
Qed.

(** Every call either refreshes the display, at its display clock, at
    least [DISPLAY_THROTTLE_MS] after the recorded stamp, and records that
    clock; or does not refresh and leaves the stamp alone. *)
Lemma step_gate c m :
  let r := step c m in
  (refreshed (snd r) = true /\
   DISPLAY_THROTTLE_MS <= displayClock c - lastDisplayUpdate m /\
   lastDisplayUpdate (fst r) = displayClock c) \/
  (refreshed (snd r) = false /\
   lastDisplayUpdate (fst r) = lastDisplayUpdate m).
Proof.
  cbn zeta. destruct c; cbn [step displayClock].
  - right. rewrite startTracking_state.
    unfold startTracking, clearTimeouts, resetMetrics, when, andThen, modify,
      effect.
    destruct m as [c t s b l [i|] [h|]]; split; reflexivity.
  - destruct (isTracking m) eqn:Ht; [destruct (Z.eq_dec cnt 0) as [-> | Hn] |].
    + right. rewrite addTokens_ignored by (right; reflexivity).
      split; reflexivity.
    + destruct (addTokens_gate now nowSpeed nowDisplay showIcon cnt m Ht Hn)
        as (Hg & Hy & Hno).
      destruct (refreshed (snd (addTokens now nowSpeed nowDisplay showIcon
                                          cnt m))) eqn:Hr.
      * left. split; [reflexivity |]. split; [apply Hg | apply Hy]; reflexivity.
      * right. split; [reflexivity | apply Hno; reflexivity].
    + right. rewrite addTokens_ignored by (left; exact Ht).
      split; reflexivity.
  - right. unfold stopTracking, clearTimeouts, when, andThen, modify.
    destruct m as [c t s b l [i|] [h|]]; split; reflexivity.
  - right. split; reflexivity.
  - right. unfold onMetricsInterval.
    destruct (metricsUpdateInterval m); split_ifs; split; reflexivity.
  - right. unfold onHideTimeout.
    destruct (hideTimeout m); split_ifs; split; reflexivity.
  - right. unfold dispose, clearTimeouts, when, andThen, modify, effect.
    destruct m as [c t s b l [i|] [h|]]; split; reflexivity.
Qed.

Lemma refreshInstants_apart cs : forall m,
  Forall (apart (lastDisplayUpdate m)) (refreshInstants cs m) /\
  ForallOrdPairs apart (refreshInstants cs m).
Proof.
  induction cs as [| c cs IH]; intros m; cbn [refreshInstants].
  - split; constructor.
  - pose proof (step_gate c m) as Hg. cbn zeta in Hg.
    destruct (step c m) as [m' effs]. cbn [fst snd] in Hg.
    destruct (IH m') as [Hall Hpairs].
    destruct Hg as [(Hr & Hd & Hl) | (Hr & Hl)]; rewrite Hr; cbn [app].
    + rewrite Hl in Hall. split.
      * constructor; [exact Hd |].
        eapply Forall_impl; [| exact Hall].
        unfold apart, DISPLAY_THROTTLE_MS in *. intros t Ht. lia.
      * constructor; assumption.
    + rewrite Hl in Hall. split; assumption.
Qed.

Lemma last_cons_default (l : list Z) : forall a d,
  last (a :: l) d = last l a.
Proof.
  induction l as [| b l IH]; intros a d; [reflexivity |].
  change (last (a :: b :: l) d) with (last (b :: l) d).
  rewrite !IH. reflexivity.
Qed.

Lemma run_lastDisplayUpdate cs : forall m,
  lastDisplayUpdate (fst (run cs m)) =
  last (refreshInstants cs m) (lastDisplayUpdate m).
Proof.
  induction cs as [| c cs IH]; intros m; [reflexivity |].
  rewrite run_cons, IH. cbn [refreshInstants].
  pose proof (step_gate c m) as Hg. cbn zeta in Hg.
  destruct (step c m) as [m' effs]. cbn [fst snd] in *.
  destruct Hg as [(Hr & Hd & Hl) | (Hr & Hl)]; rewrite Hr, Hl; cbn [app].
  - symmetry. apply last_cons_default.
  - reflexivity.
Qed.

(** C8.  An [addTokens] that is not ignored refreshes the display exactly
    when its clock is at least 100 ms past [lastDisplayUpdate], and then
    records that clock as the new [lastDisplayUpdate] (otherwise the
    stamp is kept).  Hence, over any run of calls from any state, every
    refresh comes at least 100 ms after the recorded stamp and any two
    refreshes are at least 100 ms apart. *)
Theorem refreshes_throttled :
  DISPLAY_THROTTLE_MS = 100 /\
  (forall now nowSpeed nowDisplay showIcon cnt m,
     isTracking m = true -> cnt <> 0 ->
     let r := addTokens now nowSpeed nowDisplay showIcon cnt m in
     (refreshed (snd r) = true <->
      100 <= nowDisplay - lastDisplayUpdate m) /\
     (refreshed (snd r) = true -> lastDisplayUpdate (fst r) = nowDisplay) /\
     (refreshed (snd r) = false ->
      lastDisplayUpdate (fst r) = lastDisplayUpdate m)) /\
  (forall cs m,
     Forall (fun t => 100 <= t - lastDisplayUpdate m) (refreshInstants cs m) /\
     ForallOrdPairs (fun a b => 100 <= b - a) (refreshInstants cs m)).
Proof.
  split; [reflexivity |]. split.
  - intros. apply addTokens_gate; assumption.
  - intros cs m. apply (refreshInstants_apart cs m).
Qed.

Lemma refreshes_throttled_witness :
  isTracking fastSession = true /\ 1 <> 0 /\
  refreshed (snd (addTokens 300 300 300 true 1 fastSession)) = true /\
  lastDisplayUpdate (fst (addTokens 300 300 300 true 1 fastSession)) = 300 /\
  refreshInstants burst init = [1000; 1100; 1200] /\
  ForallOrdPairs (fun a b => 100 <= b - a) [1000; 1100; 1200].
Proof.
  destruct refreshes_throttled as (_ & Hgate & Hrun).
  assert (Ht : isTracking fastSession = true) by reflexivity.
  assert (Hc : 1 <> 0) by discriminate.
  destruct (Hgate 300 300 300 true 1 fastSession Ht Hc) as (Hiff & Hyes & _).
  assert (Hr : refreshed (snd (addTokens 300 300 300 true 1 fastSession))
               = true).
  { apply Hiff. vm_compute. discriminate. }
  split; [exact Ht |]. split; [exact Hc |]. split; [exact Hr |].
  split; [exact (Hyes Hr) |]. split; [reflexivity |].
  exact (proj2 (Hrun burst init)).
Defined.

(** ** C10: the throttle stamp outlives the session *)

(** C10.  [startTracking] and [resetMetrics] leave [lastDisplayUpdate]
    as it was.  So when a run of calls made its last refresh at instant
    [L] and a new session is started, an [addTokens] whose display clock
    is less than 100 ms after [L] does not refresh the display, and the
    stamp stays [L]. *)
Theorem throttle_spans_sessions :
  (forall now modelName m,
     lastDisplayUpdate (fst (startTracking now modelName m)) =
     lastDisplayUpdate m) /\
  (forall m, lastDisplayUpdate (fst (resetMetrics m)) = lastDisplayUpdate m) /\
  (forall cs m0 start modelName now nowSpeed nowDisplay showIcon cnt,
     let L := last (refreshInstants cs m0) (lastDisplayUpdate m0) in
     let m := fst (startTracking start modelName (fst (run cs m0))) in
     nowDisplay - L < DISPLAY_THROTTLE_MS ->
     let r := addTokens now nowSpeed nowDisplay showIcon cnt m in
     refreshed (snd r) = false /\ lastDisplayUpdate (fst r) = L).
Proof.
  assert (Hstart : forall now modelName m,
             lastDisplayUpdate (fst (startTracking now modelName m)) =
             lastDisplayUpdate m).
  { intros. rewrite startTracking_state. reflexivity. }
  split; [exact Hstart |]. split; [reflexivity |].
  intros cs m0 start modelName now nowSpeed nowDisplay showIcon cnt L m Hlt r.
  assert (HL : lastDisplayUpdate m = L).
  { subst m L. rewrite Hstart. apply run_lastDisplayUpdate. }
  pose proof (step_gate (AddTokens now nowSpeed nowDisplay showIcon cnt) m)
    as Hg.
  cbn [step displayClock] in Hg. cbn zeta in Hg. fold r in Hg.
  destruct Hg as [(_ & Hd & _) | (Hr & Hl)].
  - rewrite HL in Hd. lia.
  - split; [exact Hr | congruence].
Qed.

Lemma throttle_spans_sessions_witness :
  1250 - last (refreshInstants (burst ++ [StopTracking]) init)
              (lastDisplayUpdate init) < DISPLAY_THROTTLE_MS /\
  let m := fst (startTracking 1240 "modelB"
                  (fst (run (burst ++ [StopTracking]) init))) in
  refreshed (snd (addTokens 1250 1250 1250 true 5 m)) = false /\
  lastDisplayUpdate (fst (addTokens 1250 1250 1250 true 5 m)) = 1200.
Proof.
  assert (H : 1250 - last (refreshInstants (burst ++ [StopTracking]) init)
                          (lastDisplayUpdate init) < DISPLAY_THROTTLE_MS).
  { vm_compute. reflexivity. }
  split; [exact H |].
  exact (proj2 (proj2 throttle_spans_sessions)
           (burst ++ [StopTracking]) init 1240 "modelB"%string
           1250 1250 1250 true 5 H).
Defined.

(** ** Further properties of the monitor *)

Lemma run_effects c cs m :
  snd (run (c :: cs) m) = snd (step c m) ++ snd (run cs (fst (step c m))).
Proof.
  cbn [run]. unfold andThen.
  destruct (step c m) as [m1 e1]. cbn [fst snd].
  destruct (run cs m1). reflexivity.
Qed.

(** Invariants over runs: a state property kept by the permitted calls,
    which makes every effect of such calls satisfy [P]. *)
Lemma run_invariant (I : Monitor -> Prop) (ok : Call -> bool)
    (P : Effect -> Prop) :
  (forall c m, ok c = true -> I m ->
               I (fst (step c m)) /\ Forall P (snd (step c m))) ->
  forall cs m, forallb ok cs = true -> I m ->
               I (fst (run cs m)) /\ Forall P (snd (run cs m)).
Proof.
  intros Hstep. induction cs as [| c cs IH]; intros m Hok Hm.
  - split; [exact Hm | constructor].
  - cbn [forallb] in Hok. apply andb_true_iff in Hok as [Hc Hcs].
    destruct (Hstep c m Hc Hm) as [Hm' He].
    destruct (IH _ Hcs Hm') as [Hm'' He'].
    rewrite run_cons, run_effects. split; [exact Hm'' |].
    apply Forall_app. split; assumption.
Qed.

Lemma startTracking_effects now modelName m :
  snd (startTracking now modelName m) =
  [StatusBarShow; Emit (trackingStarted modelName)].
Proof.
  unfold startTracking, clearTimeouts, resetMetrics, when, andThen, modify,
    effect.
  destruct m as [c t s b l [i|] [h|]]; reflexivity.
Qed.

Lemma stopTracking_result m :
  stopTracking m =
  (mkMonitor (currentMetrics m) false (startTime m) (tokenBuffer m)
             (lastDisplayUpdate m) None
             (Some (mkTimer POST_TRACKING_DISPLAY_MS true)),
   [Emit (trackingEnded (currentMetrics m))]).
Proof.
  unfold stopTracking, clearTimeouts, when, andThen, modify.
  destruct m as [c t s b l [i|] [h|]]; reflexivity.
Qed.

Lemma dispose_result m :
  dispose m =
  (mkMonitor (currentMetrics m) (isTracking m) (startTime m) (tokenBuffer m)
             (lastDisplayUpdate m) None None,
   [StatusBarDispose]).
Proof.
  unfold dispose, clearTimeouts, when, andThen, modify, effect.
  destruct m as [c t s b l [i|] [h|]]; reflexivity.
Qed.

Lemma addTokens_frame now nowSpeed nowDisplay showIcon cnt m :
  let m' := fst (addTokens now nowSpeed nowDisplay showIcon cnt m) in
  isTracking m' = isTracking m /\
  startTime m' = startTime m /\
  metricsUpdateInterval m' = metricsUpdateInterval m /\
  hideTimeout m' = hideTimeout m.
Proof.
  cbn zeta.
  destruct (isTracking m) eqn:Ht; [destruct (Z.eq_dec cnt 0) as [-> | Hc] |].
  - rewrite addTokens_ignored by (right; reflexivity). cbn. auto.
  - rewrite addTokens_tracking by assumption.
    destruct (throttledUpdateDisplay_frame nowDisplay showIcon
                (calculateSpeed nowSpeed (ingest now cnt m)))
      as (_ & -> & -> & _ & -> & ->).
    destruct (calculateSpeed_frame nowSpeed (ingest now cnt m))
      as (-> & -> & _ & _ & -> & -> & _).
    cbn. auto.
  - rewrite addTokens_ignored by (left; exact Ht). cbn. auto.
Qed.

Lemma effects_of_addTokens now nowSpeed nowDisplay showIcon cnt m :
  let r := addTokens now nowSpeed nowDisplay showIcon cnt m in
  let v := currentSpeed (currentMetrics (fst r)) in
  snd r = [] \/
  snd r = [StatusBarText
             (mkText (if showIcon then Some (getSpeedIcon v) else None) v)].
Proof.
  cbn zeta.
  destruct (isTracking m) eqn:Ht; [destruct (Z.eq_dec cnt 0) as [-> | Hc] |].
  - left. rewrite addTokens_ignored by (right; reflexivity). reflexivity.
  - rewrite addTokens_tracking by assumption.
    pose proof (calculateSpeed_frame nowSpeed (ingest now cnt m))
      as (Ht' & _).
    change (isTracking (ingest now cnt m)) with (isTracking m) in Ht'.
    rewrite Ht in Ht'.
    unfold throttledUpdateDisplay, when, andThen, updateDisplay, modify.
    rewrite Ht'. cbn [negb].
    destruct (DISPLAY_THROTTLE_MS <=? _); [right | left]; reflexivity.
  - left. rewrite addTokens_ignored by (left; exact Ht). reflexivity.
Qed.

(** X1.  [addTokens] emits no event.  Its only possible effect is one
    assignment of the status bar text, and that text shows the
    [currentSpeed] of the snapshot the call leaves behind, with the icon
    of that speed when [showIcon] is on. *)
Theorem addTokens_effects now nowSpeed nowDisplay showIcon cnt m :
  let r := addTokens now nowSpeed nowDisplay showIcon cnt m in
  let v := currentSpeed (currentMetrics (fst r)) in
  snd r = [] \/
  snd r = [StatusBarText
             (mkText (if showIcon then Some (getSpeedIcon v) else None) v)].
Proof. apply effects_of_addTokens. Qed.

Lemma new_arrival_kept now nowSpeed nowDisplay showIcon cnt m :
  isTracking m = true -> cnt <> 0 ->
  tokenBuffer (fst (addTokens now nowSpeed nowDisplay showIcon cnt m)) =
  filter (fun point => now - 1000 <? timestamp point) (tokenBuffer m)
    ++ [mkPoint cnt now].
Proof.
  intros Ht Hc. rewrite addTokens_tokenBuffer by assumption.
  unfold retained. rewrite filter_app. cbn [filter timestamp].
  replace (now - 1000 <? now) with true by (symmetry; apply Z.ltb_lt; lia).
  reflexivity.
Qed.

(** X2.  An [addTokens] that is not ignored always keeps its own arrival:
    the buffer it leaves is what survives of the old buffer followed by
    the new point, so it is never empty and its last point is the new
    one. *)
Theorem addTokens_keeps_new_arrival now nowSpeed nowDisplay showIcon cnt m :
  isTracking m = true -> cnt <> 0 ->
  let b :=
    tokenBuffer (fst (addTokens now nowSpeed nowDisplay showIcon cnt m)) in
  b = filter (fun point => now - 1000 <? timestamp point) (tokenBuffer m)
        ++ [mkPoint cnt now] /\
  b <> [] /\
  forall d, last b d = mkPoint cnt now.
Proof.
  intros Ht Hc. cbn zeta.
  rewrite new_arrival_kept by assumption.
  split; [reflexivity |]. split.
  - intros E. apply app_eq_nil in E as [_ E]. discriminate E.
  - intros d. apply last_last.
Qed.

Lemma addTokens_keeps_new_arrival_witness :
  isTracking fastSession = true /\ 3 <> 0 /\
  tokenBuffer (fst (addTokens 1150 1150 1150 true 3 fastSession)) =
  [mkPoint 5 200; mkPoint 3 1150].
Proof.
  assert (Ht : isTracking fastSession = true) by reflexivity.
  assert (Hc : 3 <> 0) by discriminate.
  split; [exact Ht |]. split; [exact Hc |].
  exact (proj1 (addTokens_keeps_new_arrival 1150 1150 1150 true 3 fastSession
                  Ht Hc)).
Defined.

(** *** The buffer under a clock that does not go back *)

Lemma sorted_filter (f : TokenDataPoint -> bool) b :
  timestampsSorted b -> timestampsSorted (filter f b).
Proof.
  unfold timestampsSorted. induction b as [| p b IH]; intros H; [exact H |].
  cbn [map] in H. apply StronglySorted_inv in H as [Hs Hall].
  cbn [filter]. destruct (f p); [| apply IH, Hs].
  cbn [map]. constructor; [apply IH, Hs |].
  rewrite Forall_map in *. apply incl_Forall with (l1 := b); [| exact Hall].
  apply incl_filter.
Qed.

Lemma sorted_snoc b p :
  timestampsSorted b ->
  Forall (fun q => timestamp q <= timestamp p) b ->
  timestampsSorted (b ++ [p]).
Proof.
  unfold timestampsSorted. induction b as [| q b IH]; intros Hs Hall.
  - cbn. repeat constructor.
  - cbn [map app] in *. apply StronglySorted_inv in Hs as [Hs Hq].
    apply Forall_cons_iff in Hall as [Hqp Hall].
    constructor; [apply IH; assumption |].
    rewrite map_app. apply Forall_app. split; [exact Hq |].
    repeat constructor. exact Hqp.
Qed.

Lemma step_tokenBuffer c m :
  tokenBuffer (fst (step c m)) = tokenBuffer m \/
  tokenBuffer (fst (step c m)) = [] \/
  exists now nowSpeed nowDisplay showIcon cnt,
    c = AddTokens now nowSpeed nowDisplay showIcon cnt /\
    tokenBuffer (fst (step c m)) =
    filter (fun point => now - 1000 <? timestamp point) (tokenBuffer m)
      ++ [mkPoint cnt now].
Proof.
  destruct c; cbn [step].
  - right; left. rewrite startTracking_state. reflexivity.
  - destruct (isTracking m) eqn:Ht; [destruct (Z.eq_dec cnt 0) as [-> | Hc] |].
    + left. rewrite addTokens_ignored by (right; reflexivity). reflexivity.
    + right; right. exists now, nowSpeed, nowDisplay, showIcon, cnt.
      split; [reflexivity |].
      apply new_arrival_kept; assumption.
    + left. rewrite addTokens_ignored by (left; exact Ht). reflexivity.
  - left. rewrite stopTracking_result. reflexivity.
  - right; left. reflexivity.
  - left. unfold onMetricsInterval.
    destruct (metricsUpdateInterval m); split_ifs; reflexivity.
  - left. unfold onHideTimeout.
    destruct (hideTimeout m); split_ifs; reflexivity.
  - left. rewrite dispose_result. reflexivity.
Qed.

Lemma run_sorted cs : forall t m,
  timestampsSorted (tokenBuffer m) ->
  Forall (fun p => timestamp p <= t) (tokenBuffer m) ->
  clockOrdered t cs ->
  timestampsSorted (tokenBuffer (fst (run cs m))).
Proof.
  induction cs as [| c cs IH]; intros t m Hs Hall Hclock; [exact Hs |].
  rewrite run_cons.
  destruct (step_tokenBuffer c m)
    as [E | [E | (now & nS & nD & sI & cnt & -> & E)]].
  - assert (exists t', t <= t' /\ clockOrdered t' cs) as (t' & Hle & Hc').
    { destruct c; cbn [clockOrdered] in Hclock;
        try (exists t; split; [lia | exact Hclock]).
      exists now. exact Hclock. }
    apply (IH t'); rewrite ?E; trivial.
    eapply Forall_impl; [| exact Hall]. cbn. intros; lia.
  - assert (exists t', clockOrdered t' cs) as (t' & Hc').
    { destruct c; cbn [clockOrdered] in Hclock;
        try (exists t; exact Hclock).
      exists now. apply Hclock. }
    apply (IH t'); rewrite ?E; trivial; constructor.
  - cbn [clockOrdered] in Hclock. destruct Hclock as [Hle Hc'].
    assert (Hkept : Forall (fun q => timestamp q <= now)
                      (filter (fun point => now - 1000 <? timestamp point)
                              (tokenBuffer m))).
    { apply incl_Forall with (l1 := tokenBuffer m); [apply incl_filter |].
      eapply Forall_impl; [| exact Hall]. cbn. intros; lia. }
    apply (IH now); rewrite ?E; trivial.
    + apply sorted_snoc; [apply sorted_filter, Hs | exact Hkept].
    + apply Forall_app. split; [exact Hkept |].
      repeat constructor. cbn. lia.
Qed.

(** X3.  When the clock readings of successive [addTokens] calls never
    go back, the buffer stays sorted by timestamp through any run of
    calls, so its first point, the one [calculateSpeed] measures the
    span from, is the oldest. *)
Theorem tokenBuffer_sorted cs t m :
  timestampsSorted (tokenBuffer m) ->
  Forall (fun p => timestamp p <= t) (tokenBuffer m) ->
  clockOrdered t cs ->
  let b := tokenBuffer (fst (run cs m)) in
  timestampsSorted b /\
  forall first rest p, b = first :: rest -> In p b ->
                       timestamp first <= timestamp p.
Proof.
  intros Hs Hall Hc. cbn zeta.
  pose proof (run_sorted cs t m Hs Hall Hc) as H.
  split; [exact H |].
  intros first rest p E Hin. rewrite E in H, Hin.
  unfold timestampsSorted in H. cbn [map] in H.
  apply StronglySorted_inv in H as [_ Hfirst].
  destruct Hin as [<- | Hin]; [lia |].
  rewrite Forall_map, Forall_forall in Hfirst. apply Hfirst, Hin.
Qed.

Lemma tokenBuffer_sorted_witness :
  timestampsSorted (tokenBuffer init) /\
  Forall (fun p => timestamp p <= 0) (tokenBuffer init) /\
  clockOrdered 0 burst /\
  timestampsSorted (tokenBuffer (fst (run burst init))).
Proof.
  assert (Hs : timestampsSorted (tokenBuffer init)) by constructor.
  assert (Hall : Forall (fun p => timestamp p <= 0) (tokenBuffer init))
    by constructor.
  assert (Hc : clockOrdered 0 burst) by (cbn; lia).
  split; [exact Hs |]. split; [exact Hall |]. split; [exact Hc |].
  exact (proj1 (tokenBuffer_sorted burst 0 init Hs Hall Hc)).
Defined.

(** *** Signs *)

Lemma Qdiv_nonneg a b :
  0 <= a -> Qltb 0 b = true -> (0 <= inject_Z a / b)%Q.
Proof.
  intros Ha Hb. apply Qltb_lt in Hb. unfold Qdiv.
  apply Qmult_le_0_compat.
  - unfold Qle. cbn. lia.
  - apply Qinv_le_0_compat, Qlt_le_weak, Hb.
Qed.

Lemma windowSum_nonneg b :
  Forall (fun p => 0 <= count p) b -> 0 <= windowSum b.
Proof.
  unfold windowSum.
  assert (H : forall b acc, 0 <= acc -> Forall (fun p => 0 <= count p) b ->
              0 <= fold_left (fun sum point => sum + count point) b acc).
  { clear b. induction b as [| p b IH]; intros acc Hacc Hb; [exact Hacc |].
    apply Forall_cons_iff in Hb as [Hp Hb]. cbn [fold_left].
    apply IH; [lia | exact Hb]. }
  intros Hb. apply H; [lia | exact Hb].
Qed.

Lemma calculateSpeed_nonNegative now m :
  nonNegative (currentMetrics m) ->
  Forall (fun p => 0 <= count p) (tokenBuffer m) ->
  nonNegative (currentMetrics (calculateSpeed now m)).
Proof.
  intros (Hc & Ha & Hp & Ht) Hb.
  pose proof (windowSum_nonneg _ Hb) as Hsum. unfold windowSum in Hsum.
  destruct m as [c t s b l i h]. cbn [currentMetrics tokenBuffer] in *.
  unfold calculateSpeed, nonNegative.
  destruct b as [| p b]; split_ifs; repeat split; trivial;
    apply Qdiv_nonneg; assumption.
Qed.

Lemma step_nonNegative c m :
  0 <= countOf c ->
  nonNegative (currentMetrics m) /\
  Forall (fun p => 0 <= count p) (tokenBuffer m) ->
  nonNegative (currentMetrics (fst (step c m))) /\
  Forall (fun p => 0 <= count p) (tokenBuffer (fst (step c m))).
Proof.
  intros Hcnt [Hm Hb].
  assert (Hz : nonNegative zeroMetrics).
  { unfold nonNegative. cbn. repeat split; try apply Qle_refl; lia. }
  destruct c; cbn [step countOf] in *.
  - rewrite startTracking_state. cbn. split; [exact Hz | constructor].
  - destruct (isTracking m) eqn:Ht; [destruct (Z.eq_dec cnt 0) as [-> | Hc] |].
    + rewrite addTokens_ignored by (right; reflexivity). split; assumption.
    + rewrite new_arrival_kept by assumption.
      rewrite addTokens_tracking by assumption.
      destruct (throttledUpdateDisplay_frame nowDisplay showIcon
                  (calculateSpeed nowSpeed (ingest now cnt m))) as [-> _].
      assert (Hkept : Forall (fun p => 0 <= count p)
                (filter (fun point => now - 1000 <? timestamp point)
                        (tokenBuffer m) ++ [mkPoint cnt now])).
      { apply Forall_app. split.
        - apply incl_Forall with (l1 := tokenBuffer m);
            [apply incl_filter | exact Hb].
        - repeat constructor. exact Hcnt. }
      split; [| exact Hkept].
      apply calculateSpeed_nonNegative.
      * destruct Hm as (H1 & H2 & H3 & H4). unfold nonNegative. cbn.
        repeat split; trivial. lia.
      * destruct (ingest_fields now cnt m) as [-> _]. unfold retained.
        rewrite filter_app. cbn [filter timestamp].
        replace (now - 1000 <? now) with true
          by (symmetry; apply Z.ltb_lt; lia).
        exact Hkept.
    + rewrite addTokens_ignored by (left; exact Ht). split; assumption.
  - rewrite stopTracking_result. split; assumption.
  - cbn. split; [exact Hz | constructor].
  - unfold onMetricsInterval.
    destruct (metricsUpdateInterval m); split_ifs; split; assumption.
  - unfold onHideTimeout.
    destruct (hideTimeout m); split_ifs; split; assumption.
  - rewrite dispose_result. split; assumption.
Qed.

Lemma run_peak_nonneg cs : forall m,
  (0 <= peakSpeed (currentMetrics m))%Q ->
  (0 <= peakSpeed (currentMetrics (fst (run cs m))))%Q.
Proof.
  induction cs as [| c cs IH]; intros m H; [exact H |].
  rewrite run_cons. apply IH.
  destruct (resetsMetrics c) eqn:Hc.
  - rewrite step_resets by assumption. apply Qle_refl.
  - destruct (step_metrics c m Hc) as [E | (now & nowSpeed & cnt & E)];
      rewrite E; [exact H |].
    eapply Qle_trans;
      [| apply (calculateSpeed_peak_grows nowSpeed (ingest now cnt m))].
    exact H.
Qed.

(** X4.  From construction on, [peakSpeed] is never negative, whatever
    counts are reported.  When no reported count is negative, no speed
    and no total is negative either. *)
Theorem speeds_nonNegative cs :
  (0 <= peakSpeed (metricsAfter cs init))%Q /\
  (Forall (fun c => 0 <= countOf c) cs -> nonNegative (metricsAfter cs init)).
Proof.
  unfold metricsAfter. split.
  - apply run_peak_nonneg. apply Qle_refl.
  - intros Hcs.
    enough (H : forall m,
               nonNegative (currentMetrics m) /\
               Forall (fun p => 0 <= count p) (tokenBuffer m) ->
               nonNegative (currentMetrics (fst (run cs m)))).
    { apply H. split; [| constructor].
      unfold nonNegative. cbn. repeat split; try apply Qle_refl; lia. }
    induction Hcs as [| c cs Hc Hcs IH]; intros m Hm; [apply Hm |].
    rewrite run_cons. apply IH, step_nonNegative; assumption.
Qed.

Lemma speeds_nonNegative_witness :
  Forall (fun c => 0 <= countOf c) burst /\
  nonNegative (metricsAfter burst init).
Proof.
  assert (H : Forall (fun c => 0 <= countOf c) burst).
  { repeat constructor; cbn; lia. }
  split; [exact H | exact (proj2 (speeds_nonNegative burst) H)].
Defined.

(** *** Timers and lifecycle *)

Lemma addTokens_no_hide now nowSpeed nowDisplay showIcon cnt m :
  let effs := snd (addTokens now nowSpeed nowDisplay showIcon cnt m) in
  filter isHide effs = [] /\ filter isEmit effs = [].
Proof.
  cbn zeta.
  destruct (effects_of_addTokens now nowSpeed nowDisplay showIcon cnt m)
    as [-> | ->]; split; reflexivity.
Qed.

(** One call and the hide timeout: either nothing is hidden and the
    timeout does not become pending, or the call is the timeout's
    callback firing on a monitor that is not tracking. *)
Lemma step_hide c m :
  isStop c = false ->
  let r := step c m in
  (hidePending (fst r) = true -> hidePending m = true) /\
  (filter isHide (snd r) = [] \/
   filter isHide (snd r) = [StatusBarHide] /\ c = HideTimeout /\
   isTracking m = false /\ hidePending m = true /\
   hidePending (fst r) = false).
Proof.
  intros Hc. cbn zeta. destruct c; try discriminate Hc; cbn [step].
  - rewrite startTracking_state, startTracking_effects. cbn.
    split; [discriminate | left; reflexivity].
  - destruct (addTokens_frame now nowSpeed nowDisplay showIcon cnt m)
      as (_ & _ & _ & Hh).
    unfold hidePending. rewrite Hh. split; [trivial |].
    left. apply addTokens_no_hide.
  - split; [trivial | left; reflexivity].
  - unfold onMetricsInterval.
    destruct (metricsUpdateInterval m); split_ifs;
      (split; [trivial | left; reflexivity]).
  - unfold onHideTimeout, hidePending.
    destruct m as [c t s b l i [[d [|]] |]]; cbn;
      try (split; [trivial | left; reflexivity]).
    destruct t; cbn.
    + split; [discriminate | left; reflexivity].
    + split; [discriminate | right; repeat split; reflexivity].
  - rewrite dispose_result. cbn. split; [discriminate | left; reflexivity].
Qed.

Lemma run_hides cs : forall m,
  forallb (fun c => negb (isStop c)) cs = true ->
  let effs := snd (run cs m) in
  (hidePending m = false -> filter isHide effs = []) /\
  (List.length (filter isHide effs) <= 1)%nat.
Proof.
  induction cs as [| c cs IH]; intros m Hcs; cbn zeta.
  - cbn. split; [reflexivity | lia].
  - cbn [forallb] in Hcs. apply andb_true_iff in Hcs as [Hc Hcs].
    apply negb_true_iff in Hc.
    rewrite run_effects, filter_app, length_app.
    destruct (step_hide c m Hc) as [Hp Hh]. cbn zeta in Hp, Hh.
    destruct (IH (fst (step c m)) Hcs) as [Hnone Hone].
    destruct Hh as [-> | (-> & _ & _ & Hpm & Hp')].
    + cbn [app List.length]. split; [| exact Hone].
      intros Hm. apply Hnone.
      destruct (hidePending (fst (step c m))); [| reflexivity].
      rewrite Hp in Hm by reflexivity. discriminate Hm.
    + rewrite (Hnone Hp'). cbn. split; [| lia].
      intros Hm. rewrite Hm in Hpm. discriminate Hpm.
Qed.

(** X5.  The status bar is hidden only by the hide timeout's callback,
    and only when the monitor is not tracking.  After [startTracking]
    nothing hides it until [stopTracking] is called again: the timeout
    armed by an earlier stop has been cancelled. *)
Theorem hide_only_after_stop :
  (forall c m, In StatusBarHide (snd (step c m)) ->
               c = HideTimeout /\ isTracking m = false /\
               hidePending m = true) /\
  (forall now modelName m cs,
     forallb (fun c => negb (isStop c)) cs = true ->
     ~ In StatusBarHide (snd (run cs (fst (startTracking now modelName m))))).
Proof.
  split.
  - intros c m Hin.
    assert (Hf : In StatusBarHide (filter isHide (snd (step c m)))).
    { apply filter_In. split; [exact Hin | reflexivity]. }
    destruct (isStop c) eqn:Hc.
    + destruct c; try discriminate Hc. cbn [step] in Hf.
      rewrite stopTracking_result in Hf. destruct Hf.
    + destruct (step_hide c m Hc) as [_ [E | (_ & -> & Ht & Hp & _)]].
      * rewrite E in Hf. destruct Hf.
      * auto.
  - intros now modelName m cs Hcs Hin.
    destruct (run_hides cs (fst (startTracking now modelName m)) Hcs)
      as [Hnone _].
    assert (Hf : In StatusBarHide
                   (filter isHide
                      (snd (run cs (fst (startTracking now modelName m)))))).
    { apply filter_In. split; [exact Hin | reflexivity]. }
    rewrite Hnone in Hf; [destruct Hf |].
    rewrite startTracking_state. reflexivity.
Qed.

Lemma hide_only_after_stop_witness :
  forallb (fun c => negb (isStop c))
          [HideTimeout; AddTokensAt 6000 2; HideTimeout] = true /\
  ~ In StatusBarHide
      (snd (run [HideTimeout; AddTokensAt 6000 2; HideTimeout]
                (fst (startTracking 300 "modelB"
                        (fst (stopTracking fastSession)))))).
Proof.
  split; [reflexivity |].
  exact (proj2 hide_only_after_stop 300 "modelB"%string
           (fst (stopTracking fastSession))
           [HideTimeout; AddTokensAt 6000 2; HideTimeout] eq_refl).
Defined.

(** X6.  Between two calls of [stopTracking] the status bar is hidden at
    most once, however often the timeout's callback is run. *)
Theorem hide_at_most_once cs m :
  forallb (fun c => negb (isStop c)) cs = true ->
  (List.length (filter isHide (snd (run cs m))) <= 1)%nat.
Proof. intros Hcs. apply (run_hides cs m Hcs). Qed.

Lemma hide_at_most_once_witness :
  forallb (fun c => negb (isStop c)) [HideTimeout; HideTimeout] = true /\
  filter isHide
    (snd (run [HideTimeout; HideTimeout] (fst (stopTracking fastSession)))) =
  [StatusBarHide] /\
  (List.length
     (filter isHide
        (snd (run [HideTimeout; HideTimeout]
                  (fst (stopTracking fastSession))))) <= 1)%nat.
Proof.
  split; [reflexivity |]. split; [reflexivity |].
  exact (hide_at_most_once [HideTimeout; HideTimeout]
           (fst (stopTracking fastSession)) eq_refl).
Defined.

Lemma step_interval c m :
  isStart c = false ->
  metricsUpdateInterval m = None ->
  metricsUpdateInterval (fst (step c m)) = None /\
  Forall (fun e => isMetricsUpdated e = false) (snd (step c m)).
Proof.
  intros Hc Hm. destruct c; try discriminate Hc; cbn [step].
  - destruct (addTokens_frame now nowSpeed nowDisplay showIcon cnt m)
      as (_ & _ & -> & _).
    split; [exact Hm |].
    destruct (effects_of_addTokens now nowSpeed nowDisplay showIcon cnt m)
      as [-> | ->]; repeat constructor.
  - rewrite stopTracking_result. split; repeat constructor.
  - split; [exact Hm | constructor].
  - unfold onMetricsInterval. rewrite Hm. split; [exact Hm | constructor].
  - unfold onHideTimeout.
    destruct (hideTimeout m); split_ifs; split; trivial; repeat constructor.
  - rewrite dispose_result. split; repeat constructor.
Qed.

(** X7.  A [metricsUpdated] event comes only from the interval callback,
    on a tracking monitor, and carries the monitor's snapshot.  After
    [stopTracking], and after [dispose], none is emitted until the next
    [startTracking]. *)
Theorem metricsUpdated_only_while_tracking :
  (forall c m x, In (Emit (metricsUpdated x)) (snd (step c m)) ->
                 c = MetricsInterval /\ isTracking m = true /\
                 x = currentMetrics m) /\
  (forall m cs,
     forallb (fun c => negb (isStart c)) cs = true ->
     Forall (fun e => isMetricsUpdated e = false)
            (snd (run cs (fst (stopTracking m)))) /\
     Forall (fun e => isMetricsUpdated e = false)
            (snd (run cs (fst (dispose m))))).
Proof.
  split.
  - intros c m x Hin. destruct c; cbn [step] in Hin.
    + rewrite startTracking_effects in Hin.
      destruct Hin as [E | [E | []]]; discriminate E.
    + destruct (effects_of_addTokens now nowSpeed nowDisplay showIcon cnt m)
        as [E | E]; rewrite E in Hin;
        [destruct Hin | destruct Hin as [E' | []]; discriminate E'].
    + rewrite stopTracking_result in Hin.
      destruct Hin as [E | []]; discriminate E.
    + destruct Hin.
    + unfold onMetricsInterval in Hin.
      destruct (metricsUpdateInterval m) as [t |]; [| destruct Hin].
      destruct (pending t); cbn [andb] in Hin; [| destruct Hin].
      destruct (isTracking m); [| destruct Hin].
      destruct Hin as [E | []]. injection E as <-. auto.
    + unfold onHideTimeout in Hin.
      destruct (hideTimeout m) as [t |]; [| destruct Hin].
      destruct (pending t); [| destruct Hin].
      destruct (negb (isTracking m)); [| destruct Hin].
      destruct Hin as [E | []]; discriminate E.
    + rewrite dispose_result in Hin.
      destruct Hin as [E | []]; discriminate E.
  - intros m cs Hcs.
    assert (H : forall m0, metricsUpdateInterval m0 = None ->
                Forall (fun e => isMetricsUpdated e = false)
                       (snd (run cs m0))).
    { intros m0 Hm0.
      apply (run_invariant (fun m => metricsUpdateInterval m = None)
               (fun c => negb (isStart c))
               (fun e => isMetricsUpdated e = false)); trivial.
      intros c m1 Hc Hm1. apply negb_true_iff in Hc.
      apply step_interval; assumption. }
    split; apply H.
    + rewrite stopTracking_result. reflexivity.
    + rewrite dispose_result. reflexivity.
Qed.

Lemma metricsUpdated_only_while_tracking_witness :
  forallb (fun c => negb (isStart c))
          [MetricsInterval; AddTokensAt 400 2; MetricsInterval] = true /\
  Forall (fun e => isMetricsUpdated e = false)
         (snd (run [MetricsInterval; AddTokensAt 400 2; MetricsInterval]
                   (fst (stopTracking fastSession)))) /\
  snd (step MetricsInterval fastSession) =
  [Emit (metricsUpdated (currentMetrics fastSession))].
Proof.
  split; [reflexivity |]. split; [| reflexivity].
  exact (proj1 (proj2 metricsUpdated_only_while_tracking fastSession
                  [MetricsInterval; AddTokensAt 400 2; MetricsInterval]
                  eq_refl)).
Defined.

Lemma run_noop cs : forall m,
  (forall c, In c cs -> step c m = (m, [])) -> run cs m = (m, []).
Proof.
  induction cs as [| c cs IH]; intros m H; [reflexivity |].
  cbn [run]. unfold andThen. rewrite (H c) by (left; reflexivity).
  rewrite IH; [reflexivity |].
  intros c' Hin. apply H. right. exact Hin.
Qed.

(** X8.  [dispose] cancels both timers, so that no timer callback has
    any effect afterwards, but it does not end the session: the tracking
    flag, the snapshot, the buffer and the throttle stamp stay as they
    were. *)
Theorem dispose_cancels_timers m :
  let m' := fst (dispose m) in
  isTracking m' = isTracking m /\
  currentMetrics m' = currentMetrics m /\
  tokenBuffer m' = tokenBuffer m /\
  lastDisplayUpdate m' = lastDisplayUpdate m /\
  forall cs, forallb isCallback cs = true -> run cs m' = (m', []).
Proof.
  cbn zeta. rewrite dispose_result. cbn [fst].
  repeat split. intros cs Hcs. apply run_noop.
  intros c Hin. rewrite forallb_forall in Hcs. specialize (Hcs c Hin).
  destruct c; try discriminate Hcs; reflexivity.
Qed.

Lemma dispose_cancels_timers_witness :
  forallb isCallback [MetricsInterval; HideTimeout; MetricsInterval] = true /\
  run [MetricsInterval; HideTimeout; MetricsInterval]
      (fst (dispose fastSession)) = (fst (dispose fastSession), []) /\
  isTracking (fst (dispose fastSession)) = true.
Proof.
  split; [reflexivity |]. split; [| reflexivity].
  exact (proj2 (proj2 (proj2 (proj2 (dispose_cancels_timers fastSession))))
           [MetricsInterval; HideTimeout; MetricsInterval] eq_refl).
Defined.

(** X10.  [stopTracking] does not recompute: it emits exactly one
    event, [trackingEnded] carrying the snapshot the monitor held when it
    was called, and leaves that snapshot in place.  Afterwards [addTokens]
    calls and interval callbacks change nothing and have no effect. *)
Theorem stopped_ignores_traffic m :
  snd (stopTracking m) = [Emit (trackingEnded (currentMetrics m))] /\
  currentMetrics (fst (stopTracking m)) = currentMetrics m /\
  forall cs, forallb isTraffic cs = true ->
             run cs (fst (stopTracking m)) = (fst (stopTracking m), []).
Proof.
  rewrite stopTracking_result. cbn [fst snd currentMetrics].
  split; [reflexivity |]. split; [reflexivity |].
  intros cs Hcs. apply run_noop. intros c Hin.
  rewrite forallb_forall in Hcs. specialize (Hcs c Hin).
  destruct c; try discriminate Hcs; cbn [step].
  - apply addTokens_ignored. left. reflexivity.
  - reflexivity.
Qed.

Lemma stopped_ignores_traffic_witness :
  forallb isTraffic [AddTokensAt 400 9; MetricsInterval] = true /\
  run [AddTokensAt 400 9; MetricsInterval] (fst (stopTracking fastSession)) =
  (fst (stopTracking fastSession), []) /\
  snd (step StopTracking
         (fst (run [StartTracking 0 "modelA"; AddTokensAt 0 5;
                    AddTokensAt 500 5] init))) =
  [Emit (trackingEnded
           (metricsAfter [StartTracking 0 "modelA"; AddTokensAt 0 5;
                          AddTokensAt 500 5] init))].
Proof.
  split; [reflexivity |]. split.
  - exact (proj2 (proj2 (stopped_ignores_traffic fastSession))
             [AddTokensAt 400 9; MetricsInterval] eq_refl).
  - exact (proj1 (stopped_ignores_traffic
                    (fst (run [StartTracking 0 "modelA"; AddTokensAt 0 5;
                               AddTokensAt 500 5] init)))).
Defined.

Lemma step_snapshots c m :
  peakCovers m ->
  Forall (fun x => (currentSpeed x <= peakSpeed x)%Q)
         (snapshotsOf (snd (step c m))).
Proof.
  intros Hm. destruct c; cbn [step].
  - rewrite startTracking_effects. constructor.
  - destruct (effects_of_addTokens now nowSpeed nowDisplay showIcon cnt m)
      as [-> | ->]; constructor.
  - rewrite stopTracking_result. repeat constructor. exact Hm.
  - constructor.
  - unfold onMetricsInterval.
    destruct (metricsUpdateInterval m); split_ifs; repeat constructor.
    exact Hm.
  - unfold onHideTimeout.
    destruct (hideTimeout m); split_ifs; repeat constructor.
  - rewrite dispose_result. constructor.
Qed.

Lemma snapshotsOf_app e1 e2 :
  snapshotsOf (e1 ++ e2) = snapshotsOf e1 ++ snapshotsOf e2.
Proof. unfold snapshotsOf. apply flat_map_app. Qed.

Lemma run_snapshots cs : forall m,
  peakCovers m ->
  Forall (fun x => (currentSpeed x <= peakSpeed x)%Q)
         (snapshotsOf (snd (run cs m))).
Proof.
  induction cs as [| c cs IH]; intros m Hm; [constructor |].
  rewrite run_effects, snapshotsOf_app. apply Forall_app. split.
  - apply step_snapshots, Hm.
  - apply IH, step_peakCovers, Hm.
Qed.

(** X9.  Every snapshot the monitor broadcasts, with [metricsUpdated] or
    with [trackingEnded], in any run of calls from construction, has
    [peakSpeed >= currentSpeed]. *)
Theorem broadcast_snapshots_covered cs :
  Forall (fun x => (currentSpeed x <= peakSpeed x)%Q)
         (snapshotsOf (snd (run cs init))).
Proof. apply run_snapshots. unfold peakCovers. cbn. apply Qle_refl. Qed.

(** X11.  A session owes nothing to what came before it except the
    throttle stamp: from two monitors with the same [lastDisplayUpdate],
    [startTracking] followed by any calls gives the same states and the
    same effects. *)
Theorem startTracking_forgets_history m1 m2 now modelName cs :
  lastDisplayUpdate m1 = lastDisplayUpdate m2 ->
  run (StartTracking now modelName :: cs) m1 =
  run (StartTracking now modelName :: cs) m2.
Proof.
  intros E. cbn [run step]. unfold andThen.
  rewrite (surjective_pairing (startTracking now modelName m1)).
  rewrite (surjective_pairing (startTracking now modelName m2)).
  rewrite !startTracking_state, !startTracking_effects, E. reflexivity.
Qed.

Lemma startTracking_forgets_history_witness :
  lastDisplayUpdate init = lastDisplayUpdate (fst (stopTracking sampleMonitor))
  /\
  run (StartTracking 7000 "modelB" :: [AddTokensAt 7100 4]) init =
  run (StartTracking 7000 "modelB" :: [AddTokensAt 7100 4])
      (fst (stopTracking sampleMonitor)).
Proof.
  assert (E : lastDisplayUpdate init =
              lastDisplayUpdate (fst (stopTracking sampleMonitor)))
    by reflexivity.
  split; [exact E |].
  exact (startTracking_forgets_history init (fst (stopTracking sampleMonitor))
           7000 "modelB" [AddTokensAt 7100 4] E).
Defined.

(** ** The stream handler *)

Lemma append_assoc (a b c : string) : ((a ++ b) ++ c = a ++ (b ++ c))%string.
Proof. induction a as [| x a IH]; cbn; [reflexivity | rewrite IH; reflexivity]. Qed.

Lemma append_empty_r (a : string) : (a ++ "" = a)%string.
Proof. induction a as [| x a IH]; cbn; [reflexivity | rewrite IH; reflexivity]. Qed.

(** What a call that meets no rejection does, from any handler state and
    any text accumulated so far. *)
Lemma consume_completes countTokens stream : forall h fullText,
  StreamHandler.completes countTokens stream = true ->
  let texts := StreamHandler.textsOf stream in
  let began :=
    StreamHandler.hasStarted h
    || match texts with [] => false | _ => true end in
  StreamHandler.consume countTokens stream h fullText =
  StreamHandler.mkOutcome
    (StreamHandler.mkHandler (StreamHandler.modelName h) began)
    ((if negb (StreamHandler.hasStarted h) && began
      then [StreamHandler.streamStarted (StreamHandler.modelName h)] else [])
       ++ map (StreamHandler.reported countTokens) texts
       ++ (if began then [StreamHandler.streamEnded] else []))
    (Some (fullText ++ StreamHandler.joined texts)%string).
Proof.
  induction stream as [| [chunk |] rest IH]; intros h fullText Hc; cbn zeta.
  - destruct h as [name [|]]; cbn; rewrite append_empty_r; reflexivity.
  - cbn [StreamHandler.completes] in Hc.
    apply andb_true_iff in Hc as [Hhere Hrest].
    cbn [StreamHandler.consume StreamHandler.textsOf].
    destruct (String.eqb (StreamHandler.type chunk) "text").
    + destruct (countTokens (StreamHandler.text chunk)) as [n |] eqn:Hn;
        [| discriminate Hhere].
      rewrite IH by exact Hrest. cbn zeta.
      unfold StreamHandler.emitFirst.
      cbn [StreamHandler.handler StreamHandler.emitted StreamHandler.resolved
           StreamHandler.hasStarted StreamHandler.modelName orb negb andb
           map StreamHandler.joined fold_right].
      unfold StreamHandler.reported at 2. rewrite Hn.
      rewrite append_assoc, orb_true_r.
      destruct (StreamHandler.hasStarted h); reflexivity.
    + rewrite IH by exact Hrest. reflexivity.
  - discriminate Hc.
Qed.

(** X12.  When nothing rejects, [handleApiStream] resolves to the texts
    of the text chunks joined in stream order; chunks of other types
    contribute nothing. *)
Theorem handleApiStream_text countTokens stream h :
  StreamHandler.completes countTokens stream = true ->
  StreamHandler.resolved (StreamHandler.handleApiStream countTokens stream h) =
  Some (StreamHandler.joined (StreamHandler.textsOf stream)).
Proof.
  intros Hc. unfold StreamHandler.handleApiStream.
  rewrite consume_completes by exact Hc. reflexivity.
Qed.

Lemma handleApiStream_text_witness :
  StreamHandler.completes StreamHandler.perCharacter
    StreamHandler.sampleStream = true /\
  StreamHandler.resolved
    (StreamHandler.handleApiStream StreamHandler.perCharacter
       StreamHandler.sampleStream (StreamHandler.mkHandler "modelA" false)) =
  Some "Hello, world"%string.
Proof.
  split; [reflexivity |].
  exact (handleApiStream_text StreamHandler.perCharacter
           StreamHandler.sampleStream
           (StreamHandler.mkHandler "modelA" false) eq_refl).
Defined.

(** X13.  On a handler that has not started, a call that meets no
    rejection emits nothing when the stream has no text chunk; otherwise
    it emits [streamStarted], then one [chunkReceived] per text chunk in
    order, each with the chunk's text and its token count, then
    [streamEnded]. *)
Theorem handleApiStream_fresh countTokens stream name :
  StreamHandler.completes countTokens stream = true ->
  StreamHandler.emitted
    (StreamHandler.handleApiStream countTokens stream
       (StreamHandler.mkHandler name false)) =
  match StreamHandler.textsOf stream with
  | [] => []
  | texts =>
    StreamHandler.streamStarted name
      :: map (StreamHandler.reported countTokens) texts
      ++ [StreamHandler.streamEnded]
  end.
Proof.
  intros Hc. unfold StreamHandler.handleApiStream.
  rewrite consume_completes by exact Hc. cbn zeta.
  destruct (StreamHandler.textsOf stream); reflexivity.
Qed.

Lemma handleApiStream_fresh_witness :
  StreamHandler.completes StreamHandler.perCharacter
    StreamHandler.sampleStream = true /\
  StreamHandler.emitted
    (StreamHandler.handleApiStream StreamHandler.perCharacter
       StreamHandler.sampleStream (StreamHandler.mkHandler "modelA" false)) =
  [StreamHandler.streamStarted "modelA";
   StreamHandler.chunkReceived (StreamHandler.mkChunkData "Hello" 5);
   StreamHandler.chunkReceived (StreamHandler.mkChunkData ", world" 7);
   StreamHandler.streamEnded].
Proof.
  split; [reflexivity |].
  exact (handleApiStream_fresh StreamHandler.perCharacter
           StreamHandler.sampleStream "modelA" eq_refl).
Defined.

(** X14.  [hasStarted] is never cleared.  A handler used again emits no
    second [streamStarted], and it emits [streamEnded] at the end of every
    later stream that meets no rejection, even one without a text
    chunk. *)
Theorem handleApiStream_reused countTokens stream h :
  StreamHandler.hasStarted h = true ->
  StreamHandler.completes countTokens stream = true ->
  let o := StreamHandler.handleApiStream countTokens stream h in
  StreamHandler.emitted o =
  map (StreamHandler.reported countTokens) (StreamHandler.textsOf stream)
    ++ [StreamHandler.streamEnded] /\
  StreamHandler.hasStarted (StreamHandler.handler o) = true.
Proof.
  intros Hh Hc. unfold StreamHandler.handleApiStream.
  rewrite consume_completes by exact Hc. cbn zeta. rewrite Hh.
  split; reflexivity.
Qed.

Lemma handleApiStream_reused_witness :
  let h :=
    StreamHandler.handler
      (StreamHandler.handleApiStream StreamHandler.perCharacter
         StreamHandler.sampleStream (StreamHandler.mkHandler "modelA" false)) in
  StreamHandler.hasStarted h = true /\
  StreamHandler.completes StreamHandler.perCharacter
    [StreamHandler.Yield (StreamHandler.mkChunk "usage" "")] = true /\
  StreamHandler.emitted
    (StreamHandler.handleApiStream StreamHandler.perCharacter
       [StreamHandler.Yield (StreamHandler.mkChunk "usage" "")] h) =
  [StreamHandler.streamEnded].
Proof.
  cbn zeta. split; [reflexivity |]. split; [reflexivity |].
  exact (proj1 (handleApiStream_reused StreamHandler.perCharacter
                  [StreamHandler.Yield (StreamHandler.mkChunk "usage" "")]
                  (StreamHandler.handler
                     (StreamHandler.handleApiStream StreamHandler.perCharacter
                        StreamHandler.sampleStream
                        (StreamHandler.mkHandler "modelA" false)))
                  eq_refl eq_refl)).
Defined.

Lemma consume_rejects countTokens stream : forall h fullText,
  let o := StreamHandler.consume countTokens stream h fullText in
  (StreamHandler.resolved o = None <->
   StreamHandler.completes countTokens stream = false) /\
  (StreamHandler.resolved o = None ->
   ~ In StreamHandler.streamEnded (StreamHandler.emitted o)) /\
  (StreamHandler.hasStarted h = true ->
   StreamHandler.hasStarted (StreamHandler.handler o) = true).
Proof.
  induction stream as [| [chunk |] rest IH]; intros h fullText; cbn zeta.
  - cbn. repeat split; try discriminate; trivial.
  - cbn [StreamHandler.consume StreamHandler.completes].
    destruct (String.eqb (StreamHandler.type chunk) "text").
    + destruct (countTokens (StreamHandler.text chunk)) as [n |].
      * destruct (IH (StreamHandler.mkHandler (StreamHandler.modelName h) true)
                     (fullText ++ StreamHandler.text chunk)%string)
          as (Hiff & Hno & Hkeep).
        cbn zeta in Hiff, Hno, Hkeep.
        unfold StreamHandler.emitFirst.
        cbn [StreamHandler.handler StreamHandler.emitted
             StreamHandler.resolved andb].
        split; [exact Hiff |]. split.
        -- intros Hr Hin. apply (Hno Hr).
           apply in_app_or in Hin as [Hin | Hin]; [| exact Hin].
           apply in_app_or in Hin as [Hin | [E | []]]; [| discriminate E].
           destruct (negb (StreamHandler.hasStarted h));
             [destruct Hin as [E | []]; discriminate E | destruct Hin].
        -- intros _. apply Hkeep. reflexivity.
      * cbn. repeat split; trivial.
        intros _ Hin.
        destruct (negb (StreamHandler.hasStarted h));
          [destruct Hin as [E | []]; discriminate E | destruct Hin].
    + cbn [andb]. apply IH.
  - cbn. repeat split; trivial. intros _ [].
Qed.

(** X15.  The promise rejects exactly when the stream or [countTokens]
    rejects, and then no [streamEnded] is emitted, although
    [streamStarted] may have been; a started handler stays started. *)
Theorem handleApiStream_rejection countTokens stream h :
  let o := StreamHandler.handleApiStream countTokens stream h in
  (StreamHandler.resolved o = None <->
   StreamHandler.completes countTokens stream = false) /\
  (StreamHandler.resolved o = None ->
   ~ In StreamHandler.streamEnded (StreamHandler.emitted o)) /\
  (StreamHandler.hasStarted h = true ->
   StreamHandler.hasStarted (StreamHandler.handler o) = true).
Proof. apply consume_rejects. Qed.

Lemma handleApiStream_rejection_witness :
  let o :=
    StreamHandler.handleApiStream StreamHandler.perCharacter
      [StreamHandler.Yield (StreamHandler.mkChunk "text" "Hi");
       StreamHandler.Reject]
      (StreamHandler.mkHandler "modelA" false) in
  StreamHandler.resolved o = None /\
  StreamHandler.emitted o =
  [StreamHandler.streamStarted "modelA";
   StreamHandler.chunkReceived (StreamHandler.mkChunkData "Hi" 2)] /\
  ~ In StreamHandler.streamEnded (StreamHandler.emitted o).
Proof.
  cbn zeta. split; [reflexivity |]. split; [reflexivity |].
  exact (proj1 (proj2 (handleApiStream_rejection StreamHandler.perCharacter
                         [StreamHandler.Yield
                            (StreamHandler.mkChunk "text" "Hi");
                          StreamHandler.Reject]
                         (StreamHandler.mkHandler "modelA" false)))
           eq_refl).
Defined.

(** ** The details view *)

Lemma onMessage_update_history metrics isComplete s :
  let l :=
    WebviewScript.speedHistory s
      ++ [SpeedDetailsViewProvider.mkHistoryPoint
            (elapsedTime metrics) (currentSpeed metrics)] in
  (List.length (WebviewScript.speedHistory s) <= 60)%nat ->
  WebviewScript.speedHistory
    (fst (WebviewScript.onMessage
            (SpeedDetailsViewProvider.update metrics isComplete) s)) =
  skipn (List.length l - 60) l.
Proof.
  cbn zeta. intros Hlen. destruct s as [w h hist st sh].
  cbn [WebviewScript.speedHistory] in *.
  unfold WebviewScript.onMessage, WebviewScript.maxPoints.
  set (l := hist ++ [_]).
  assert (Hl : List.length l = S (List.length hist)).
  { unfold l. rewrite length_app. cbn. lia. }
  assert (E : forall s0, WebviewScript.speedHistory s0 = hist ->
            WebviewScript.speedHistory
              (fst (let s1 := WebviewScript.set_speedHistory
                                (WebviewScript.speedHistory s0 ++
                                 [SpeedDetailsViewProvider.mkHistoryPoint
                                    (elapsedTime metrics)
                                    (currentSpeed metrics)]) s0 in
                    let s2 :=
                      if 60 <? Z.of_nat
                                 (List.length (WebviewScript.speedHistory s1))
                      then WebviewScript.set_speedHistory
                             (tl (WebviewScript.speedHistory s1)) s1
                      else s1 in
                    (s2, WebviewScript.drawChart s2))) =
            skipn (List.length l - 60) l).
  { intros s0 E0. cbn zeta. cbn [WebviewScript.set_speedHistory
      WebviewScript.speedHistory]. rewrite E0. fold l.
    destruct (60 <? Z.of_nat (List.length l)) eqn:Hgt; cbn [fst].
    - apply Z.ltb_lt in Hgt. cbn [WebviewScript.speedHistory].
      replace (List.length l - 60)%nat with 1%nat by lia.
      destruct l; reflexivity.
    - apply Z.ltb_ge in Hgt. cbn [WebviewScript.speedHistory].
      replace (List.length l - 60)%nat with 0%nat by lia. reflexivity. }
  destruct isComplete; [apply E; reflexivity |].
  cbn [WebviewScript.set_shown WebviewScript.speedHistory].
  destruct (List.length hist =? 0)%nat; apply E; reflexivity.
Qed.

Lemma skipn_window {A} (l r : list A) :
  let k := (List.length l - 60)%nat in
  let l' := skipn k l ++ r in
  skipn (List.length l' - 60) l' =
  skipn (List.length (l ++ r) - 60) (l ++ r).
Proof.
  cbn zeta.
  assert (E : skipn (List.length l - 60) l ++ r =
              skipn (List.length l - 60) (l ++ r)).
  { rewrite skipn_app.
    replace (List.length l - 60 - List.length l)%nat with 0%nat by lia.
    reflexivity. }
  rewrite E, skipn_skipn. f_equal.
  rewrite length_skipn, !length_app. lia.
Qed.

Lemma receive_history messages : forall s,
  forallb WebviewScript.isUpdate messages = true ->
  (List.length (WebviewScript.speedHistory s) <= 60)%nat ->
  let l := WebviewScript.speedHistory s ++ WebviewScript.pointsOf messages in
  WebviewScript.speedHistory (WebviewScript.receive messages s) =
  skipn (List.length l - 60) l.
Proof.
  induction messages as [| message rest IH]; intros s Hup Hlen; cbn zeta.
  - cbn. rewrite app_nil_r.
    replace (List.length (WebviewScript.speedHistory s) - 60)%nat
      with 0%nat by lia.
    reflexivity.
  - cbn [forallb] in Hup. apply andb_true_iff in Hup as [Hm Hrest].
    destruct message as [| metrics isComplete]; [discriminate Hm |].
    cbn [WebviewScript.receive].
    pose proof (onMessage_update_history metrics isComplete s Hlen) as Hstep.
    cbn zeta in Hstep.
    rewrite IH; trivial.
    + rewrite Hstep. unfold WebviewScript.pointsOf. cbn [flat_map].
      fold (WebviewScript.pointsOf rest).
      rewrite skipn_window.
      rewrite <- app_assoc. reflexivity.
    + rewrite Hstep, length_skipn, length_app. cbn. lia.
Qed.

Lemma onMessage_history_bound message s :
  (List.length (WebviewScript.speedHistory s) <= 60)%nat ->
  (List.length
     (WebviewScript.speedHistory (fst (WebviewScript.onMessage message s)))
   <= 60)%nat.
Proof.
  intros Hlen. destruct message as [| metrics isComplete].
  - cbn. lia.
  - rewrite onMessage_update_history by exact Hlen.
    rewrite length_skipn, length_app. cbn. lia.
Qed.

Lemma receive_history_bound messages : forall s,
  (List.length (WebviewScript.speedHistory s) <= 60)%nat ->
  (List.length (WebviewScript.speedHistory (WebviewScript.receive messages s))
   <= 60)%nat.
Proof.
  induction messages as [| message rest IH]; intros s Hlen; [exact Hlen |].
  cbn [WebviewScript.receive]. apply IH, onMessage_history_bound, Hlen.
Qed.

(** X16.  The chart history of the page never holds more than 60 points,
    whatever messages arrive; and after update messages alone it is the
    last 60 of the points it held followed by the points received, in
    order. *)
Theorem chart_history_window messages s :
  (List.length (WebviewScript.speedHistory s) <= 60)%nat ->
  (List.length (WebviewScript.speedHistory (WebviewScript.receive messages s))
   <= 60)%nat /\
  (forallb WebviewScript.isUpdate messages = true ->
   let l := WebviewScript.speedHistory s ++ WebviewScript.pointsOf messages in
   WebviewScript.speedHistory (WebviewScript.receive messages s) =
   skipn (List.length l - 60) l).
Proof.
  intros Hlen. split.
  - apply receive_history_bound, Hlen.
  - intros Hup. apply receive_history; assumption.
Qed.

Lemma chart_history_window_witness :
  (List.length
     (WebviewScript.speedHistory (WebviewScript.loaded 300 150)) <= 60)%nat /\
  forallb WebviewScript.isUpdate WebviewScript.manyUpdates = true /\
  List.length
    (WebviewScript.speedHistory
       (WebviewScript.receive WebviewScript.manyUpdates
          (WebviewScript.loaded 300 150))) = 60%nat.
Proof.
  assert (Hlen : (List.length
                    (WebviewScript.speedHistory (WebviewScript.loaded 300 150))
                  <= 60)%nat) by (cbn; lia).
  assert (Hup : forallb WebviewScript.isUpdate WebviewScript.manyUpdates
                = true) by reflexivity.
  split; [exact Hlen |]. split; [exact Hup |].
  rewrite (proj2 (chart_history_window WebviewScript.manyUpdates
                    (WebviewScript.loaded 300 150) Hlen) Hup).
  reflexivity.
Defined.

Lemma update_history_nonempty metrics isComplete s :
  WebviewScript.speedHistory
    (fst (WebviewScript.onMessage
            (SpeedDetailsViewProvider.update metrics isComplete) s)) <> [].
Proof.
  destruct s as [w h hist st sh].
  unfold WebviewScript.onMessage, WebviewScript.maxPoints.
  assert (E : forall st0,
            WebviewScript.speedHistory
              (fst (let s1 := WebviewScript.set_speedHistory
                                (hist ++
                                 [SpeedDetailsViewProvider.mkHistoryPoint
                                    (elapsedTime metrics)
                                    (currentSpeed metrics)])
                                (WebviewScript.mkScript w h hist st0 metrics) in
                    let s2 :=
                      if 60 <? Z.of_nat
                                 (List.length (WebviewScript.speedHistory s1))
                      then WebviewScript.set_speedHistory
                             (tl (WebviewScript.speedHistory s1)) s1
                      else s1 in
                    (s2, WebviewScript.drawChart s2))) <> []).
  { intros st0. cbn zeta.
    cbn [WebviewScript.set_speedHistory WebviewScript.speedHistory].
    set (l := hist ++ [_]).
    destruct (60 <? Z.of_nat (List.length l)) eqn:Hgt; cbn [fst];
      cbn [WebviewScript.speedHistory].
    - apply Z.ltb_lt in Hgt. intros E.
      destruct l as [| a [| b l]]; cbn in Hgt; try lia. discriminate E.
    - unfold l. intros E. apply app_eq_nil in E as [_ E]. discriminate E. }
  destruct isComplete; [apply E |].
  cbn [WebviewScript.set_shown WebviewScript.speedHistory].
  destruct (List.length hist =? 0)%nat; apply E.
Qed.

Lemma progress_keeps_status metrics s :
  WebviewScript.speedHistory s <> [] ->
  WebviewScript.status
    (fst (WebviewScript.onMessage
            (SpeedDetailsViewProvider.update metrics false) s)) =
  WebviewScript.status s.
Proof.
  intros Hne. destruct s as [w h hist st sh].
  cbn [WebviewScript.speedHistory] in Hne.
  destruct hist as [| p hist]; [contradiction |].
  unfold WebviewScript.onMessage.
  cbn [WebviewScript.set_shown WebviewScript.speedHistory List.length Nat.eqb].
  cbn zeta.
  destruct (WebviewScript.maxPoints <? _); reflexivity.
Qed.

Lemma receive_progress_status messages : forall s,
  forallb WebviewScript.isProgress messages = true ->
  WebviewScript.speedHistory s <> [] ->
  WebviewScript.status (WebviewScript.receive messages s) =
  WebviewScript.status s.
Proof.
  induction messages as [| message rest IH]; intros s Hp Hne; [reflexivity |].
  cbn [forallb] in Hp. apply andb_true_iff in Hp as [Hm Hrest].
  destruct message as [| metrics [|]]; try discriminate Hm.
  cbn [WebviewScript.receive].
  rewrite IH; trivial.
  - apply progress_keeps_status, Hne.
  - apply update_history_nonempty.
Qed.

(** X18.  The status line of the page.  The first progress update after
    a reset shows "Tracking...".  Once an update flagged complete has
    shown "Generation Complete", later progress updates leave that status
    in place: only a reset, which hides the line, or another completion
    touches it. *)
Theorem status_line :
  (forall s metrics,
     WebviewScript.status
       (WebviewScript.receive
          [SpeedDetailsViewProvider.reset;
           SpeedDetailsViewProvider.update metrics false] s) =
     WebviewScript.trackingStatus) /\
  (forall s metrics messages,
     forallb WebviewScript.isProgress messages = true ->
     WebviewScript.status
       (WebviewScript.receive
          (SpeedDetailsViewProvider.update metrics true :: messages) s) =
     WebviewScript.completeStatus).
Proof.
  split.
  - intros s metrics. destruct s as [w h hist st sh]. reflexivity.
  - intros s metrics messages Hp. cbn [WebviewScript.receive].
    rewrite receive_progress_status;
      [| exact Hp | apply update_history_nonempty].
    destruct s as [w h hist st sh].
    unfold WebviewScript.onMessage. cbn zeta.
    destruct (WebviewScript.maxPoints <? _); reflexivity.
Qed.

Lemma status_line_witness :
  forallb WebviewScript.isProgress WebviewScript.manyUpdates = true /\
  WebviewScript.status
    (WebviewScript.receive
       (SpeedDetailsViewProvider.update zeroMetrics true
          :: WebviewScript.manyUpdates)
       (WebviewScript.loaded 300 150)) =
  WebviewScript.completeStatus.
Proof.
  split; [reflexivity |].
  exact (proj2 status_line (WebviewScript.loaded 300 150) zeroMetrics
           WebviewScript.manyUpdates eq_refl).
Defined.

(** *** From the monitor to the page *)

Lemma on_view e p :
  SpeedDetailsViewProvider.view (fst (SpeedDetailsViewProvider.on e p)) =
  SpeedDetailsViewProvider.view p.
Proof. destruct e; reflexivity. Qed.

Lemma listen_spec effs : forall p,
  SpeedDetailsViewProvider.view
    (fst (SpeedDetailsViewProvider.listen effs p)) =
  SpeedDetailsViewProvider.view p /\
  snd (SpeedDetailsViewProvider.listen effs p) =
  if SpeedDetailsViewProvider.view p
  then flat_map WebviewScript.messageOf effs
  else [].
Proof.
  induction effs as [| e effs IH]; intros p;
    cbn [SpeedDetailsViewProvider.listen flat_map].
  - split; [reflexivity | destruct (SpeedDetailsViewProvider.view p)];
      reflexivity.
  - destruct e as [ev | | | t |]; try apply IH.
    pose proof (on_view ev p) as Hv.
    destruct (SpeedDetailsViewProvider.on ev p) as [p1 ms1] eqn:Hon.
    cbn [fst] in Hv.
    destruct (IH p1) as [Hv2 Hm2].
    destruct (SpeedDetailsViewProvider.listen effs p1) as [p2 ms2].
    cbn [fst snd] in *. rewrite Hv in *. split; [exact Hv2 |]. subst ms2.
    assert (ms1 = if SpeedDetailsViewProvider.view p
                  then WebviewScript.messageOf (Emit ev) else []) as ->.
    { destruct ev; cbn in Hon; injection Hon as <- <-;
        unfold SpeedDetailsViewProvider.updateView;
        destruct (SpeedDetailsViewProvider.view p); reflexivity. }
    destruct (SpeedDetailsViewProvider.view p); reflexivity.
Qed.

Lemma resolved_view_messages effs :
  snd (SpeedDetailsViewProvider.listen effs
         (SpeedDetailsViewProvider.mkProvider true [])) =
  flat_map WebviewScript.messageOf effs.
Proof.
  destruct (listen_spec effs (SpeedDetailsViewProvider.mkProvider true []))
    as [_ E].
  exact E.
Qed.

(** X19.  The provider posts nothing while no view is resolved.  With a
    view it posts one message per event the monitor emitted, in order: a
    reset for [trackingStarted], a progress update for [metricsUpdated]
    and an update flagged complete for [trackingEnded], each carrying the
    event's snapshot; the monitor's other effects post nothing. *)
Theorem provider_messages effs p :
  (SpeedDetailsViewProvider.view p = false ->
   snd (SpeedDetailsViewProvider.listen effs p) = []) /\
  (SpeedDetailsViewProvider.view p = true ->
   snd (SpeedDetailsViewProvider.listen effs p) =
   flat_map WebviewScript.messageOf effs).
Proof.
  destruct (listen_spec effs p) as [_ E].
  split; intros Hv; rewrite E, Hv; reflexivity.
Qed.

Lemma provider_messages_witness :
  snd (SpeedDetailsViewProvider.listen
         (snd (run (burst ++ [StopTracking]) init))
         (SpeedDetailsViewProvider.mkProvider false [])) = [] /\
  snd (SpeedDetailsViewProvider.listen
         (snd (run [StartTracking 0 "modelA"; StopTracking] init))
         (SpeedDetailsViewProvider.mkProvider true [])) =
  [SpeedDetailsViewProvider.reset;
   SpeedDetailsViewProvider.update zeroMetrics true].
Proof.
  split.
  - exact (proj1 (provider_messages
                    (snd (run (burst ++ [StopTracking]) init))
                    (SpeedDetailsViewProvider.mkProvider false []))
             eq_refl).
  - exact (proj2 (provider_messages
                    (snd (run [StartTracking 0 "modelA"; StopTracking] init))
                    (SpeedDetailsViewProvider.mkProvider true []))
             eq_refl).
Defined.

Lemma run_snoc cs c : forall m,
  run (cs ++ [c]) m =
  (fst (step c (fst (run cs m))),
   snd (run cs m) ++ snd (step c (fst (run cs m)))).
Proof.
  induction cs as [| c' cs IH]; intros m.
  - cbn [app run]. unfold andThen, skip. cbn [fst snd app].
    destruct (step c m) as [m1 e1]. cbn [fst snd].
    rewrite app_nil_r. reflexivity.
  - cbn [app]. rewrite (surjective_pairing (run (c' :: cs ++ [c]) m)).
    rewrite run_cons, run_effects, IH, run_cons, run_effects. cbn [fst snd].
    rewrite app_assoc. reflexivity.
Qed.

Lemma receive_app ms1 ms2 : forall s,
  WebviewScript.receive (ms1 ++ ms2) s =
  WebviewScript.receive ms2 (WebviewScript.receive ms1 s).
Proof.
  induction ms1 as [| message ms1 IH]; intros s; [reflexivity |].
  cbn [app WebviewScript.receive]. apply IH.
Qed.

Lemma onMessage_shown message s :
  WebviewScript.shown (fst (WebviewScript.onMessage message s)) =
  match message with
  | SpeedDetailsViewProvider.reset => WebviewScript.shown s
  | SpeedDetailsViewProvider.update metrics _ => metrics
  end.
Proof.
  destruct s as [w h hist st sh]. destruct message as [| metrics isComplete];
    [reflexivity |].
  unfold WebviewScript.onMessage. cbn zeta.
  destruct isComplete;
    [| cbn [WebviewScript.set_shown WebviewScript.speedHistory];
       destruct (List.length hist =? 0)%nat];
    destruct (WebviewScript.maxPoints <? _); reflexivity.
Qed.

Lemma receive_shown (P : TokenSpeedMetrics -> Prop) messages : forall s,
  P (WebviewScript.shown s) ->
  (forall metrics isComplete,
     In (SpeedDetailsViewProvider.update metrics isComplete) messages ->
     P metrics) ->
  P (WebviewScript.shown (WebviewScript.receive messages s)).
Proof.
  induction messages as [| message rest IH]; intros s Hs Hall; [exact Hs |].
  cbn [WebviewScript.receive]. apply IH.
  - rewrite onMessage_shown. destruct message as [| metrics isComplete];
      [exact Hs |].
    apply (Hall metrics isComplete). left. reflexivity.
  - intros metrics isComplete Hin. apply (Hall metrics isComplete).
    right. exact Hin.
Qed.

Lemma update_from_snapshot effs metrics isComplete :
  In (SpeedDetailsViewProvider.update metrics isComplete)
     (flat_map WebviewScript.messageOf effs) ->
  In metrics (snapshotsOf effs).
Proof.
  unfold snapshotsOf. rewrite !in_flat_map.
  intros (e & He & Hin). exists e. split; [exact He |].
  destruct e as [[name | c | c] | | | t |]; cbn in Hin |- *;
    try contradiction;
    destruct Hin as [E | []]; try discriminate E;
    injection E as <- _; left; reflexivity.
Qed.

(** X20.  From the monitor to the page.  Whatever calls the monitor
    receives from construction on, with a resolved view: the snapshot the
    page shows has [peakSpeed >= currentSpeed]; the chart holds at most 60
    points; and right after a [startTracking] the chart is empty and the
    status line hidden. *)
Theorem page_follows_monitor width height cs :
  let page := WebviewScript.pageAfter width height cs in
  (currentSpeed (WebviewScript.shown page) <=
   peakSpeed (WebviewScript.shown page))%Q /\
  (List.length (WebviewScript.speedHistory page) <= 60)%nat /\
  forall now modelName,
    let page' :=
      WebviewScript.pageAfter width height
        (cs ++ [StartTracking now modelName]) in
    WebviewScript.speedHistory page' = [] /\
    WebviewScript.display (WebviewScript.status page') = "none"%string.
Proof.
  cbn zeta. unfold WebviewScript.pageAfter.
  assert (Hms : forall effs,
            snd (SpeedDetailsViewProvider.listen effs
                   (SpeedDetailsViewProvider.mkProvider true [])) =
            flat_map WebviewScript.messageOf effs).
  { intros effs. apply resolved_view_messages. }
  rewrite !Hms. split; [| split].
  - apply receive_shown.
    + cbn. apply Qle_refl.
    + intros metrics isComplete Hin.
      apply update_from_snapshot in Hin.
      pose proof (run_snapshots cs init) as Hall.
      rewrite Forall_forall in Hall. apply Hall; [| exact Hin].
      unfold peakCovers. cbn. apply Qle_refl.
  - apply receive_history_bound. cbn. lia.
  - intros now modelName. rewrite Hms, run_snoc. cbn [snd step].
    rewrite startTracking_effects, flat_map_app, receive_app.
    cbn [flat_map WebviewScript.messageOf app WebviewScript.receive].
    destruct (WebviewScript.receive _ _) as [w h hist st sh].
    split; reflexivity.
Qed.

End TokenSpeedMonitor.
